(** * Habit tracker: the analytics of [app/dashboard.py]

    A shallow embedding of the computations the dashboard performs on the
    table of habit records (the streak of a habit, the daily metrics, the
    weekly, monthly and per-habit completion rates), and the properties of
    these computations; then the write [save_completion], the loop of the
    daily tab that issues it, the default date, the monthly average and the
    labels of the periods.

    Conventions of the embedding.
    - A data frame is the list of its rows, in row order.  A boolean mask
      [df[mask]] is [filter]; a column is [map] of a field.
    - A date is a day number, the proleptic Gregorian ordinal (day 1 is
      0001-01-01): the dashboard only handles timestamps normalised to
      midnight.  The [.dt] accessors of pandas ([year], [month],
      [isocalendar().week]) are written out on that ordinal.
    - Python integers are [Z].  A float64 produced by [mean()] is an exact
      rational [Q], or [None] for NaN (the mean of an empty column);
      rounding is not modelled.
    - [sort_values] orders rows by date, ascending.  pandas does not fix
      the relative order of rows with equal dates; the model keeps them in
      row order, and [sorted_by_date_unique] shows that nothing depends on
      that choice when the dates of the rows are pairwise distinct. *)

From Stdlib Require Import ZArith QArith List Bool Ascii String Lia Lqa.
From Stdlib Require Import Permutation Sorted.
From Stdlib Require Decimal DecimalString DecimalPos DecimalZ.
Import ListNotations.

Local Open Scope Z_scope.

(** ** Data model *)

(** One row of the [habits] table. *)
Record Row : Type := mkRow {
  date : Z;
  habit_name : string;
  completed : Z
}.

Definition DataFrame : Type := list Row.

Definition POINTS_PER_HABIT : Z := 10.

(** ** Calendar: the [.dt] accessors *)

Module Calendar.

Definition is_leap (y : Z) : bool :=
  (y mod 4 =? 0) && (negb (y mod 100 =? 0) || (y mod 400 =? 0)).

Definition days_before_year (year : Z) : Z :=
  let y := year - 1 in y * 365 + y / 4 - y / 100 + y / 400.

Definition days_in_month (leap : bool) (m : Z) : Z :=
  if m =? 2 then (if leap then 29 else 28)
  else if (m =? 4) || (m =? 6) || (m =? 9) || (m =? 11) then 30
  else 31.

(** Days of a common year before the first of month [m]. *)
Definition days_before_month_common (m : Z) : Z :=
  nth (Z.to_nat m) [0; 0; 31; 59; 90; 120; 151; 181; 212; 243; 273; 304; 334] 0.

Definition days_before_month (year m : Z) : Z :=
  days_before_month_common m + (if (2 <? m) && is_leap year then 1 else 0).

Definition ymd2ord (year m d : Z) : Z :=
  days_before_year year + days_before_month year m + d.

(** The inverse of [ymd2ord]: year, month and day of an ordinal. *)
Definition ord2ymd (ord : Z) : Z * Z * Z :=
  let n := ord - 1 in
  let n400 := n / 146097 in
  let n := n mod 146097 in
  let n100 := n / 36524 in
  let n := n mod 36524 in
  let n4 := n / 1461 in
  let n := n mod 1461 in
  let n1 := n / 365 in
  let n := n mod 365 in
  let year := n400 * 400 + 1 + n100 * 100 + n4 * 4 + n1 in
  if (n1 =? 4) || (n100 =? 4) then (year - 1, 12, 31)
  else
    let leapyear := (n1 =? 3) && (negb (n4 =? 24) || (n100 =? 3)) in
    let month := Z.shiftr (n + 50) 5 in
    let preceding :=
      days_before_month_common month
      + (if (2 <? month) && leapyear then 1 else 0) in
    if n <? preceding
    then (year, month - 1,
          n - (preceding - days_in_month leapyear (month - 1)) + 1)
    else (year, month, n - preceding + 1).

(** [df["date"].dt.year] *)
Definition dt_year (d : Z) : Z := fst (fst (ord2ymd d)).

(** [df["date"].dt.month] *)
Definition dt_month (d : Z) : Z := snd (fst (ord2ymd d)).

(** Day of the week, Monday = 0. *)
Definition weekday (d : Z) : Z := (d + 6) mod 7.

(** Ordinal of the Monday that starts ISO week 1 of [year]: the week
    that holds the year's first Thursday. *)
Definition isoweek1monday (year : Z) : Z :=
  let firstday := ymd2ord year 1 1 in
  let firstweekday := (firstday + 6) mod 7 in
  let week1monday := firstday - firstweekday in
  if 3 <? firstweekday then week1monday + 7 else week1monday.

(** ISO-8601 year and week number of a date. *)
Definition isocalendar (d : Z) : Z * Z :=
  let year := dt_year d in
  let week := (d - isoweek1monday year) / 7 in
  if week <? 0 then
    (year - 1, (d - isoweek1monday (year - 1)) / 7 + 1)
  else if (52 <=? week) && (isoweek1monday (year + 1) <=? d) then
    (year + 1, 1)
  else (year, week + 1).

Definition iso_year (d : Z) : Z := fst (isocalendar d).

(** [df["date"].dt.isocalendar().week] *)
Definition iso_week (d : Z) : Z := snd (isocalendar d).

End Calendar.

(** ** [sort_values("date")] *)

Definition date_leb (a b : Row) : bool := date a <=? date b.

Fixpoint insert_by_date (r : Row) (l : list Row) : list Row :=
  match l with
  | [] => [r]
  | x :: l' => if date_leb r x then r :: x :: l' else x :: insert_by_date r l'
  end.

Fixpoint sort_values (df : DataFrame) : DataFrame :=
  match df with
  | [] => []
  | r :: df' => insert_by_date r (sort_values df')
  end.

(** ** [calculate_streak] *)

(** The [for] loop over the reversed column: [streak] is the counter,
    leaving the recursion is the [break]. *)
Fixpoint streak_loop (cs : list Z) (streak : Z) : Z :=
  match cs with
  | [] => streak
  | c :: rest => if c =? 1 then streak_loop rest (streak + 1) else streak
  end.

(** The function with the ordering of the rows left open. *)
Definition calculate_streak_with (srt : DataFrame -> DataFrame)
    (df : DataFrame) (habit : string) : Z :=
  let habit_df := srt (filter (fun r => String.eqb (habit_name r) habit) df) in
  streak_loop (rev (map completed habit_df)) 0.

Definition calculate_streak (df : DataFrame) (habit : string) : Z :=
  calculate_streak_with sort_values df habit.

(** ** Column reductions *)

(** [Series.sum()] of an integer column. *)
Fixpoint series_sum (col : list Z) : Z :=
  match col with
  | [] => 0
  | c :: col' => c + series_sum col'
  end.

(** [Series.mean()]: sum over count in floating point, NaN on an empty
    column. *)
Definition series_mean (col : list Z) : option Q :=
  match col with
  | [] => None
  | _ :: _ => Some (inject_Z (series_sum col) / inject_Z (Z.of_nat (List.length col)))%Q
  end.

(** [x * 100] on a float; NaN stays NaN. *)
Definition times100 (x : option Q) : option Q :=
  option_map (fun q => (q * 100)%Q) x.

(** ** Daily metrics *)

(** [daily_df = df[df["date"] == selected_date]] *)
Definition daily_df (df : DataFrame) (selected_date : Z) : DataFrame :=
  filter (fun r => date r =? selected_date) df.

Definition empty (df : DataFrame) : bool :=
  match df with [] => true | _ :: _ => false end.

Definition daily_completion_pct (df : DataFrame) (selected_date : Z) : option Q :=
  let daily := daily_df df selected_date in
  if negb (empty daily)
  then times100 (series_mean (map completed daily))
  else Some 0%Q.

Definition daily_points (df : DataFrame) (selected_date : Z) : Z :=
  let daily := daily_df df selected_date in
  if negb (empty daily)
  then series_sum (map completed daily) * POINTS_PER_HABIT
  else 0.

(** ** [groupby(...)["completed"].mean()] *)

Section GroupBy.

Context {K : Type}.
Variable key_eqb : K -> K -> bool.
Variable key_leb : K -> K -> bool.

(** The distinct keys of a key column. *)
Fixpoint unique (ks : list K) : list K :=
  match ks with
  | [] => []
  | k :: ks' => k :: filter (fun k' => negb (key_eqb k' k)) (unique ks')
  end.

Fixpoint insert_key (k : K) (l : list K) : list K :=
  match l with
  | [] => [k]
  | x :: l' => if key_leb k x then k :: x :: l' else x :: insert_key k l'
  end.

Fixpoint sort_keys (ks : list K) : list K :=
  match ks with
  | [] => []
  | k :: ks' => insert_key k (sort_keys ks')
  end.

(** One group per distinct key, in ascending key order (pandas sorts
    the group keys); a group holds the rows of its key in row order. *)
Definition groupby (key : Row -> K) (df : DataFrame) : list (K * DataFrame) :=
  map (fun k => (k, filter (fun r => key_eqb (key r) k) df))
      (sort_keys (unique (map key df))).

Definition groupby_mean (key : Row -> K) (df : DataFrame) : list (K * option Q) :=
  map (fun g => (fst g, series_mean (map completed (snd g)))) (groupby key df).

(** The aggregate followed by [completion_pct = completed * 100]. *)
Definition completion_by (key : Row -> K) (df : DataFrame) : list (K * option Q) :=
  map (fun g => (fst g, times100 (snd g))) (groupby_mean key df).

End GroupBy.

(** Keys made of two integers, compared as tuples. *)
Definition pair_eqb (a b : Z * Z) : bool :=
  (fst a =? fst b) && (snd a =? snd b).

Definition pair_leb (a b : Z * Z) : bool :=
  (fst a <? fst b) || ((fst a =? fst b) && (snd a <=? snd b)).

(** The key the weekly tab assigns to a row: [year = dt.year],
    [week = dt.isocalendar().week]. *)
Definition week_key (r : Row) : Z * Z :=
  (Calendar.dt_year (date r), Calendar.iso_week (date r)).

(** The key the monthly tab assigns to a row. *)
Definition month_key (r : Row) : Z * Z :=
  (Calendar.dt_year (date r), Calendar.dt_month (date r)).

(** The ISO-8601 key of a row: ISO year and ISO week. *)
Definition iso_week_key (r : Row) : Z * Z :=
  (Calendar.iso_year (date r), Calendar.iso_week (date r)).

(** The [weekly] frame, as its rows [((year, week), completion_pct)];
    the text label [year_week] is left out. *)
Definition weekly (df : DataFrame) : list ((Z * Z) * option Q) :=
  completion_by pair_eqb pair_leb week_key df.

(** The [monthly] frame, as its rows [((year, month), completion_pct)]. *)
Definition monthly (df : DataFrame) : list ((Z * Z) * option Q) :=
  completion_by pair_eqb pair_leb month_key df.

(** The [habit_progress] frame, as its rows [(habit_name, completion_pct)]. *)
Definition habit_progress (df : DataFrame) : list (string * option Q) :=
  completion_by String.eqb String.leb habit_name df.

(** ** The streak as the specification words it *)

(** Counting from the most recent record backward, while [completed] is 1. *)
Fixpoint trailing_run (newest_first : list Row) : nat :=
  match newest_first with
  | [] => 0%nat
  | r :: older => if completed r =? 1 then S (trailing_run older) else 0%nat
  end.

(** Filter to the habit, order by date ascending, count the run at the
    recent end. *)
Definition spec_streak (df : DataFrame) (habit : string) : Z :=
  let of_habit := filter (fun r => String.eqb (habit_name r) habit) df in
  Z.of_nat (trailing_run (rev (sort_values of_habit))).

(** The rows of one habit, oldest first. *)
Definition history (df : DataFrame) (habit : string) : list Row :=
  sort_values (filter (fun r => String.eqb (habit_name r) habit) df).

(** The same record on another day. *)
Definition redate (f : Z -> Z) (r : Row) : Row :=
  mkRow (f (date r)) (habit_name r) (completed r).

(** ** Sample tables *)

Definition day (y m d : Z) : Z := Calendar.ymd2ord y m d.

(** "Read" on 2025-01-01..04 with completed 1, 1, 0, 1, in shuffled row
    order and mixed with another habit. *)
Definition read_log : DataFrame :=
  [ mkRow (day 2025 1 3) "Read" 0;
    mkRow (day 2025 1 1) "Read" 1;
    mkRow (day 2025 1 4) "Exercise" 0;
    mkRow (day 2025 1 4) "Read" 1;
    mkRow (day 2025 1 2) "Read" 1 ].

(** "Exercise" completed on four consecutive days. *)
Definition exercise_log : DataFrame :=
  [ mkRow (day 2025 1 1) "Exercise" 1;
    mkRow (day 2025 1 2) "Exercise" 1;
    mkRow (day 2025 1 3) "Exercise" 1;
    mkRow (day 2025 1 4) "Exercise" 1 ].

(** Two habits on 2025-03-10, one done and one not. *)
Definition two_habits : DataFrame :=
  [ mkRow (day 2025 3 10) "Read" 1;
    mkRow (day 2025 3 10) "Exercise" 0 ].

(** A Monday in the first days of 2024 and the Monday 2024-12-30, which
    opens ISO week 1 of 2025. *)
Definition year_end_log : DataFrame :=
  [ mkRow (day 2024 1 1) "Read" 1;
    mkRow (day 2024 12 30) "Read" 0 ].

(** ** [save_completion] *)

(** The [habits] table of the database holds the rows the frame is read
    from, and is the state the function works on.  The condition of the
    statement: [WHERE date = ? AND habit_name = ?]. *)
Definition where_key (d : Z) (h : string) (r : Row) : bool :=
  (date r =? d) && String.eqb (habit_name r) h.

(** [UPDATE habits SET completed = ? WHERE date = ? AND habit_name = ?] *)
Definition save_completion (d : Z) (h : string) (c : Z) (db : DataFrame)
  : DataFrame :=
  map (fun r => if where_key d h r then mkRow (date r) (habit_name r) c else r)
      db.

(** ** The daily tab *)

(** Python's [bool(n)] and [int(b)]. *)
Definition py_bool (n : Z) : bool := negb (n =? 0).

Definition py_int (b : bool) : Z := if b then 1 else 0.

(** [int(daily_df["completed"].sum())], the "Active Habits" figure. *)
Definition active_habits (df : DataFrame) (selected_date : Z) : Z :=
  series_sum (map completed (daily_df df selected_date)).

(** One turn of the loop over the rows of the selected date.  The state is
    the table of the database and the flag [updated]; [checkbox] is what
    the check box of a habit returns. *)
Definition daily_habit_step (checkbox : string -> bool) (selected_date : Z)
    (st : DataFrame * bool) (row : Row) : DataFrame * bool :=
  let new_value := checkbox (habit_name row) in
  if negb (Bool.eqb new_value (py_bool (completed row)))
  then (save_completion selected_date (habit_name row) (py_int new_value) (fst st),
        true)
  else st.

(** The loop [for idx, row in daily_df.iterrows()], from [updated = False]. *)
Definition daily_habits (checkbox : string -> bool) (df db : DataFrame)
    (selected_date : Z) : DataFrame * bool :=
  fold_left (daily_habit_step checkbox selected_date)
            (daily_df df selected_date) (db, false).

(** The two slices of the progress ring:
    [[daily_completion_pct, 100 - daily_completion_pct]]. *)
Definition progress_ring (df : DataFrame) (selected_date : Z)
  : option Q * option Q :=
  let pct := daily_completion_pct df selected_date in
  (pct, option_map (fun q => (100 - q)%Q) pct).

(** [Series.min()] of a date column; [None] is NaT, on an empty column. *)
Fixpoint series_min (col : list Z) : option Z :=
  match col with
  | [] => None
  | d :: col' =>
      match series_min col' with
      | None => Some d
      | Some m => Some (Z.min d m)
      end
  end.

(** The date the side bar proposes: [df["date"].min()]. *)
Definition default_date (df : DataFrame) : option Z :=
  series_min (map date df).

(** ** The monthly average *)

(** The numbers of a float column, NaN left out. *)
Fixpoint dropna (col : list (option Q)) : list Q :=
  match col with
  | [] => []
  | Some q :: col' => q :: dropna col'
  | None :: col' => dropna col'
  end.

Fixpoint float_sum (vals : list Q) : Q :=
  match vals with
  | [] => 0%Q
  | q :: vals' => (q + float_sum vals')%Q
  end.

(** [Series.mean()] of a float column: NaN is skipped, and the mean of no
    number is NaN. *)
Definition float_mean (col : list (option Q)) : option Q :=
  match dropna col with
  | [] => None
  | vals => Some (float_sum vals / inject_Z (Z.of_nat (List.length vals)))%Q
  end.

(** [avg_monthly = monthly["completion_pct"].mean()] *)
Definition avg_monthly (df : DataFrame) : option Q :=
  float_mean (map snd (monthly df)).

(** ** Labels of the periods *)

(** [astype(str)] of an integer: its decimal notation, as Python writes
    it. *)
Definition astype_str (z : Z) : string :=
  DecimalString.NilZero.string_of_int (Z.to_int z).

(** [weekly["year"].astype(str) + "-W" + weekly["week"].astype(str)] *)
Definition year_week (k : Z * Z) : string :=
  String.append (astype_str (fst k)) (String.append "-W" (astype_str (snd k))).

(** The dictionary of the monthly tab. *)
Definition month_names : list (Z * string) :=
  [ (1, "Jan"); (2, "Feb"); (3, "Mar"); (4, "Apr");
    (5, "May"); (6, "Jun"); (7, "Jul"); (8, "Aug");
    (9, "Sep"); (10, "Oct"); (11, "Nov"); (12, "Dec") ]%string.

(** [Series.map(dict)]: a value that is no key of the dictionary becomes
    NaN, here [None]. *)
Definition map_dict (dict : list (Z * string)) (m : Z) : option string :=
  option_map snd (find (fun e => fst e =? m) dict).

(** [monthly["year"].astype(str) + "-" + monthly["month"].map({...})];
    a string plus NaN is NaN. *)
Definition year_month (k : Z * Z) : option string :=
  option_map (fun name => String.append (astype_str (fst k)) (String.append "-" name))
             (map_dict month_names (snd k)).

(** The character [c] occurs in [s]. *)
Fixpoint occurs (c : Ascii.ascii) (s : string) : bool :=
  match s with
  | EmptyString => false
  | String c' s' => Ascii.eqb c' c || occurs c s'
  end.

(** ** What the loop of the daily tab is compared with *)

(** The check box of a row does not show what the row stores. *)
Definition toggled (checkbox : string -> bool) (row : Row) : bool :=
  negb (Bool.eqb (checkbox (habit_name row)) (py_bool (completed row))).

(** Each row of the selected date whose check box was toggled takes the
    value of its check box, in one pass over the table. *)
Definition apply_checkboxes (checkbox : string -> bool) (selected_date : Z)
    (db : DataFrame) : DataFrame :=
  map (fun r =>
         if (date r =? selected_date) && toggled checkbox r
         then mkRow (date r) (habit_name r) (py_int (checkbox (habit_name r)))
         else r)
      db.

(** ** Orders on the group keys *)

Definition leb_order {K : Type} (leb : K -> K -> bool) (a b : K) : Prop :=
  leb a b = true.

(** Strictly before, in the order of the keys. *)
Definition ltb_order {K : Type} (leb : K -> K -> bool) (a b : K) : Prop :=
  leb a b = true /\ a <> b.

(** ** Predicates of the statements *)

(** The store keeps [completed] as 0 or 1. *)
Definition binary (c : Z) : Prop := c = 0 \/ c = 1.

(** A number that is a percentage: not NaN, and between 0 and 100. *)
Definition is_percentage (x : option Q) : Prop :=
  exists q : Q, x = Some q /\ (0 <= q <= 100)%Q.

(** Date order on rows. *)
Definition date_le (a b : Row) : Prop := date a <= date b.

(** * Properties *)

(** ** Calendar checks *)

Example ord2ymd_ymd2ord_samples :
  map Calendar.ord2ymd [day 2025 3 10; day 2024 2 29; day 2024 12 31; day 1900 3 1]
  = [(2025, 3, 10); (2024, 2, 29); (2024, 12, 31); (1900, 3, 1)].
Proof. reflexivity. Qed.

(** 2024-12-30 is a Monday; 2021-01-01 is in week 53 of 2020. *)
Example isocalendar_samples :
  Calendar.weekday (day 2024 12 30) = 0
  /\ map Calendar.isocalendar
       [day 2024 1 1; day 2024 12 29; day 2024 12 30; day 2021 1 1; day 2025 3 10]
     = [(2024, 1); (2024, 52); (2025, 1); (2020, 53); (2025, 11)].
Proof. split; reflexivity. Qed.

(** ** Ordering by date *)

Lemma insert_by_date_perm (r : Row) (l : list Row) :
  Permutation (insert_by_date r l) (r :: l).
Proof.
  induction l as [|x l IH]; simpl.
  - apply Permutation_refl.
  - destruct (date_leb r x).
    + apply Permutation_refl.
    + apply perm_trans with (x :: r :: l).
      * now apply perm_skip.
      * apply perm_swap.
Qed.

Lemma sort_values_perm (df : DataFrame) : Permutation (sort_values df) df.
Proof.
  induction df as [|r df IH]; simpl.
  - constructor.
  - apply perm_trans with (r :: sort_values df).
    + apply insert_by_date_perm.
    + now apply perm_skip.
Qed.

Lemma sort_values_length (df : DataFrame) :
  List.length (sort_values df) = List.length df.
Proof. apply Permutation_length, sort_values_perm. Qed.

Lemma sort_values_In (df : DataFrame) (r : Row) :
  In r (sort_values df) <-> In r df.
Proof.
  split; apply Permutation_in.
  - apply sort_values_perm.
  - apply Permutation_sym, sort_values_perm.
Qed.

Lemma insert_by_date_sorted (r : Row) (l : list Row) :
  StronglySorted date_le l -> StronglySorted date_le (insert_by_date r l).
Proof.
  induction 1 as [|x l Hs IH Hx]; simpl.
  - repeat constructor.
  - unfold date_leb. destruct (Z.leb_spec (date r) (date x)) as [Hle|Hgt].
    + constructor.
      * now constructor.
      * constructor; [exact Hle|].
        eapply Forall_impl; [|exact Hx].
        unfold date_le. intros; lia.
    + constructor; [exact IH|].
      apply (Permutation_Forall (Permutation_sym (insert_by_date_perm r l))).
      constructor; [unfold date_le; lia | exact Hx].
Qed.

Lemma sort_values_sorted (df : DataFrame) :
  StronglySorted date_le (sort_values df).
Proof.
  induction df; simpl; [constructor | now apply insert_by_date_sorted].
Qed.

(** Rows with pairwise distinct dates have one ascending order only. *)
Lemma sorted_by_date_unique (l1 l2 : list Row) :
  StronglySorted date_le l1 -> StronglySorted date_le l2 ->
  Permutation l1 l2 -> NoDup (map date l1) -> l1 = l2.
Proof.
  revert l2. induction l1 as [|a l1 IH]; intros l2 S1 S2 P N.
  - now apply Permutation_nil in P.
  - destruct l2 as [|b l2].
    + now apply Permutation_sym, Permutation_nil in P.
    + inversion S1 as [|? ? S1' F1]; subst.
      inversion S2 as [|? ? S2' F2]; subst.
      inversion N as [|? ? Na N']; subst.
      assert (Hab : a = b).
      { assert (Hb : In b (a :: l1))
          by (apply (Permutation_in _ (Permutation_sym P)); now left).
        destruct Hb as [Hb|Hb]; [exact Hb|].
        assert (Ha : In a (b :: l2)) by (apply (Permutation_in _ P); now left).
        destruct Ha as [Ha|Ha]; [now symmetry|].
        rewrite Forall_forall in F1, F2.
        specialize (F1 _ Hb). specialize (F2 _ Ha). unfold date_le in *.
        exfalso. apply Na. replace (date a) with (date b) by lia.
        now apply in_map. }
      subst b. f_equal.
      apply IH; auto. eapply Permutation_cons_inv; exact P.
Qed.

(** Any procedure that returns the rows in ascending date order computes
    the same streak as the model, as long as the habit has one row per
    date. *)
Lemma calculate_streak_any_sort (srt : DataFrame -> DataFrame)
    (df : DataFrame) (habit : string) :
  (forall l, Permutation (srt l) l) ->
  (forall l, StronglySorted date_le (srt l)) ->
  NoDup (map date (filter (fun r => String.eqb (habit_name r) habit) df)) ->
  calculate_streak_with srt df habit = calculate_streak df habit.
Proof.
  intros Hp Hs Hn. unfold calculate_streak, calculate_streak_with.
  set (l := filter _ df) in *.
  replace (srt l) with (sort_values l); [reflexivity|].
  apply sorted_by_date_unique.
  - apply sort_values_sorted.
  - apply Hs.
  - apply perm_trans with l; [apply sort_values_perm | apply Permutation_sym, Hp].
  - apply (Permutation_NoDup (l := map date l)); [|exact Hn].
    apply Permutation_map, Permutation_sym, sort_values_perm.
Qed.



(** Sorting commutes with a change of dates that keeps their order. *)
Lemma insert_by_date_redate (f : Z -> Z) (a : Row) (l : list Row) :
  (forall x y, f x <= f y <-> x <= y) ->
  insert_by_date (redate f a) (map (redate f) l)
  = map (redate f) (insert_by_date a l).
Proof.
  intros Hf. induction l as [|x l IH]; simpl; [reflexivity|].
  unfold date_leb. simpl.
  destruct (Z.leb_spec (date a) (date x)) as [H|H];
    destruct (Z.leb_spec (f (date a)) (f (date x))) as [H'|H'].
  - reflexivity.
  - apply (proj2 (Hf _ _)) in H. lia.
  - apply (proj1 (Hf _ _)) in H'. lia.
  - simpl. now rewrite IH.
Qed.

Lemma sort_values_redate (f : Z -> Z) (l : list Row) :
  (forall x y, f x <= f y <-> x <= y) ->
  sort_values (map (redate f) l) = map (redate f) (sort_values l).
Proof.
  intros Hf. induction l as [|a l IH]; simpl; [reflexivity|].
  rewrite IH. now apply insert_by_date_redate.
Qed.

Lemma filter_habit_redate (f : Z -> Z) (habit : string) (l : list Row) :
  filter (fun r => String.eqb (habit_name r) habit) (map (redate f) l)
  = map (redate f) (filter (fun r => String.eqb (habit_name r) habit) l).
Proof.
  induction l as [|a l IH]; simpl; [reflexivity|].
  destruct (String.eqb (habit_name a) habit); simpl; now rewrite IH.
Qed.

(** ** The counting loop *)

Lemma streak_loop_acc (cs : list Z) (acc : Z) :
  streak_loop cs acc = acc + streak_loop cs 0.
Proof.
  revert acc. induction cs as [|c cs IH]; intros acc; simpl.
  - lia.
  - destruct (c =? 1); [|lia].
    rewrite (IH (acc + 1)), (IH 1). lia.
Qed.

Lemma streak_loop_trailing_run (rows : list Row) :
  streak_loop (map completed rows) 0 = Z.of_nat (trailing_run rows).
Proof.
  induction rows as [|r rows IH]; simpl; [reflexivity|].
  destruct (completed r =? 1); [|reflexivity].
  rewrite streak_loop_acc, IH. lia.
Qed.

Lemma streak_loop_bounds (cs : list Z) :
  0 <= streak_loop cs 0 <= Z.of_nat (List.length cs).
Proof.
  induction cs as [|c cs IH]; simpl; [lia|].
  destruct (c =? 1); [|lia].
  rewrite streak_loop_acc. lia.
Qed.

(** The loop stops in front of the first value other than 1. *)
Lemma streak_loop_shape (cs : list Z) :
  (Forall (fun c => c = 1) cs /\ streak_loop cs 0 = Z.of_nat (List.length cs))
  \/ (exists ones c rest,
        cs = ones ++ c :: rest /\ Forall (fun c => c = 1) ones /\ c <> 1
        /\ streak_loop cs 0 = Z.of_nat (List.length ones)).
Proof.
  induction cs as [|c cs IH]; simpl.
  - left. split; [constructor | reflexivity].
  - destruct (Z.eqb_spec c 1) as [->|Hc].
    + rewrite streak_loop_acc.
      destruct IH as [[Hall Hn]|(ones & c & rest & -> & Hones & Hc & Hn)].
      * left. split; [now constructor | lia].
      * right. exists (1 :: ones), c, rest.
        repeat split; [now constructor | exact Hc | simpl List.length; lia].
    + right. exists [], c, cs. repeat split; [constructor | exact Hc].
Qed.

Lemma calculate_streak_history (df : DataFrame) (habit : string) :
  calculate_streak df habit
  = streak_loop (rev (map completed (history df habit))) 0.
Proof. reflexivity. Qed.

Lemma filter_habit_absent (df : DataFrame) (habit : string) :
  ~ In habit (map habit_name df) ->
  filter (fun r => String.eqb (habit_name r) habit) df = [].
Proof.
  induction df as [|r df IH]; simpl; intros H; [reflexivity|].
  destruct (String.eqb_spec (habit_name r) habit) as [E|_].
  - exfalso. apply H. now left.
  - apply IH. intros Hin. apply H. now right.
Qed.

Lemma history_In (df : DataFrame) (habit : string) (r : Row) :
  In r (history df habit) -> In r df /\ habit_name r = habit.
Proof.
  unfold history. rewrite sort_values_In, filter_In.
  intros [Hin E]. split; [exact Hin | now apply String.eqb_eq].
Qed.

(** ** The streak *)

(** C1. The streak that [calculate_streak] returns is the one obtained by
    keeping the rows of the habit, ordering them by date ascending and
    counting from the most recent row backward while [completed] is 1,
    stopping at the first row where it is not.  A habit whose history is
    1, 1, 0, 1 over four dates has streak 1; one whose history is
    1, 1, 1, 1 has streak 4. *)
Theorem calculate_streak_refines_spec :
  (forall (df : DataFrame) (habit : string),
      calculate_streak df habit = spec_streak df habit)
  /\ (map completed (history read_log "Read") = [1; 1; 0; 1]
      /\ calculate_streak read_log "Read" = 1)
  /\ (map completed (history exercise_log "Exercise") = [1; 1; 1; 1]
      /\ calculate_streak exercise_log "Exercise" = 4).
Proof.
  split; [|split; split; reflexivity].
  intros df habit. unfold calculate_streak, calculate_streak_with, spec_streak.
  rewrite <- map_rev. apply streak_loop_trailing_run.
Qed.

(** C3. The streak only looks at the rows that exist for the habit, in
    date order.  Moving the rows apart in time by any map of the dates
    that keeps their order (so opening gaps of any length between them)
    leaves the streak as it is; and the run either covers the whole
    history of the habit, or ends at a row of the table, of that habit,
    whose [completed] is not 1. *)
Theorem streak_ignores_calendar_gaps
    (df : DataFrame) (habit : string) (f : Z -> Z) :
  (forall x y, f x <= f y <-> x <= y) ->
  calculate_streak (map (redate f) df) habit = calculate_streak df habit
  /\ ((Forall (fun r => completed r = 1) (history df habit)
       /\ calculate_streak df habit = Z.of_nat (List.length (history df habit)))
      \/ (exists older r recent,
            history df habit = older ++ r :: recent
            /\ In r df /\ habit_name r = habit /\ completed r <> 1
            /\ Forall (fun x => completed x = 1) recent
            /\ calculate_streak df habit = Z.of_nat (List.length recent))).
Proof.
  intros Hf. split.
  - unfold calculate_streak, calculate_streak_with.
    rewrite filter_habit_redate, sort_values_redate by exact Hf.
    rewrite map_map. reflexivity.
  - rewrite calculate_streak_history.
    destruct (streak_loop_shape (rev (map completed (history df habit))))
      as [[Hall Hn]|(ones & c & rest & Hcs & Hones & Hc & Hn)].
    + left. split.
      * apply Forall_rev in Hall. rewrite rev_involutive in Hall.
        rewrite Forall_map in Hall. exact Hall.
      * rewrite Hn, length_rev, length_map. reflexivity.
    + right.
      apply (f_equal (@rev Z)) in Hcs.
      rewrite rev_involutive, rev_app_distr in Hcs. simpl in Hcs.
      rewrite <- app_assoc in Hcs. simpl in Hcs.
      apply map_eq_app in Hcs. destruct Hcs as (older & tl & Hh & _ & Htl).
      apply map_eq_cons in Htl. destruct Htl as (r & recent & -> & Hr & Hrec).
      exists older, r, recent.
      assert (Hin : In r (history df habit))
        by (rewrite Hh; apply in_or_app; right; now left).
      apply history_In in Hin. destruct Hin as [Hin Hname].
      repeat split; try assumption.
      * congruence.
      * apply Forall_rev in Hones. rewrite <- Hrec in Hones.
        rewrite Forall_map in Hones. exact Hones.
      * rewrite Hn. rewrite <- (length_rev ones), <- Hrec, length_map.
        reflexivity.
Qed.

(** Every existing gap doubled, on the "Read" sample: the hypothesis of
    [streak_ignores_calendar_gaps] holds for [fun d => 2 * d]. *)
Lemma streak_ignores_calendar_gaps_witness :
  calculate_streak (map (redate (fun d => 2 * d)) read_log) "Read"
  = calculate_streak read_log "Read".
Proof.
  apply (streak_ignores_calendar_gaps read_log "Read" (fun d => 2 * d)).
  intros x y. lia.
Defined.



(** C7. For a habit name that no row of the table carries, the streak
    is 0. *)
Theorem streak_of_unknown_habit (df : DataFrame) (habit : string) :
  ~ In habit (map habit_name df) ->
  calculate_streak df habit = 0.
Proof.
  intros H. unfold calculate_streak, calculate_streak_with.
  now rewrite (filter_habit_absent df habit H).
Qed.

Lemma streak_of_unknown_habit_witness :
  calculate_streak read_log "Swim" = 0.
Proof.
  apply (streak_of_unknown_habit read_log "Swim").
  simpl. intros H.
  repeat (destruct H as [H|H]; [discriminate H|]).
  destruct H.
Defined.

(** C10. The streak is an integer between 0 and the number of rows of
    the table that belong to the habit. *)
Theorem streak_bounded_by_habit_rows (df : DataFrame) (habit : string) :
  0 <= calculate_streak df habit
       <= Z.of_nat (List.length
            (filter (fun r => String.eqb (habit_name r) habit) df)).
Proof.
  unfold calculate_streak, calculate_streak_with.
  pose proof (streak_loop_bounds
    (rev (map completed
       (sort_values (filter (fun r => String.eqb (habit_name r) habit) df)))))
    as H.
  rewrite length_rev, length_map, sort_values_length in H. exact H.
Qed.

(** ** Columns of zeros and ones *)

Lemma series_sum_binary (col : list Z) :
  Forall binary col ->
  series_sum col = Z.of_nat (List.length (filter (fun c => c =? 1) col)).
Proof.
  intros H. induction H as [|c col Hc _ IH]; [reflexivity|].
  cbn [series_sum filter]. rewrite IH.
  destruct Hc as [-> | ->].
  - reflexivity.
  - change (1 =? 1) with true. cbn [List.length]. lia.
Qed.

Lemma series_sum_binary_bounds (col : list Z) :
  Forall binary col -> 0 <= series_sum col <= Z.of_nat (List.length col).
Proof.
  intros H. induction H as [|c col Hc _ IH]; cbn [series_sum List.length]; [lia|].
  destruct Hc as [-> | ->]; lia.
Qed.

Lemma ratio_percentage (s n : Z) :
  0 <= s <= n -> 0 < n ->
  (0 <= inject_Z s / inject_Z n * 100 <= 100)%Q.
Proof.
  intros Hs Hn.
  assert (Hn' : (0 < inject_Z n)%Q) by (unfold Qlt; simpl; lia).
  assert (H0 : (0 <= inject_Z s / inject_Z n)%Q).
  { apply Qle_shift_div_l; [exact Hn'|].
    rewrite Qmult_0_l. unfold Qle; simpl; lia. }
  assert (H1 : (inject_Z s / inject_Z n <= 1)%Q).
  { apply Qle_shift_div_r; [exact Hn'|].
    rewrite Qmult_1_l. unfold Qle; simpl; lia. }
  split; lra.
Qed.

Lemma mean_percentage (col : list Z) :
  col <> [] -> Forall binary col ->
  is_percentage (times100 (series_mean col)).
Proof.
  intros Hne Hb. destruct col as [|c col]; [congruence|].
  unfold series_mean, times100, option_map.
  eexists. split; [reflexivity|].
  apply ratio_percentage.
  - apply series_sum_binary_bounds, Hb.
  - simpl List.length. lia.
Qed.

(** ** Grouping *)

Section GroupByFacts.

Context {K : Type}.
Variable key_eqb : K -> K -> bool.
Variable key_leb : K -> K -> bool.
Hypothesis key_eqb_eq : forall a b, key_eqb a b = true <-> a = b.

Lemma unique_In (ks : list K) (k : K) :
  In k (unique key_eqb ks) <-> In k ks.
Proof.
  induction ks as [|k0 ks IH]; simpl; [tauto|].
  rewrite filter_In, IH, negb_true_iff.
  destruct (key_eqb k k0) eqn:E.
  - apply key_eqb_eq in E. subst. intuition.
  - intuition.
Qed.

Lemma unique_NoDup (ks : list K) : NoDup (unique key_eqb ks).
Proof.
  induction ks as [|k0 ks IH]; simpl; constructor.
  - rewrite filter_In, negb_true_iff. intros [_ E].
    rewrite (proj2 (key_eqb_eq k0 k0) eq_refl) in E. discriminate.
  - now apply NoDup_filter.
Qed.

Lemma insert_key_perm (k : K) (l : list K) :
  Permutation (insert_key key_leb k l) (k :: l).
Proof.
  induction l as [|x l IH]; simpl; [apply Permutation_refl|].
  destruct (key_leb k x); [apply Permutation_refl|].
  apply perm_trans with (x :: k :: l); [now apply perm_skip | apply perm_swap].
Qed.

Lemma sort_keys_perm (ks : list K) : Permutation (sort_keys key_leb ks) ks.
Proof.
  induction ks as [|k ks IH]; simpl; [constructor|].
  apply perm_trans with (k :: sort_keys key_leb ks);
    [apply insert_key_perm | now apply perm_skip].
Qed.

Lemma completion_by_keys (key : Row -> K) (df : DataFrame) :
  map fst (completion_by key_eqb key_leb key df)
  = sort_keys key_leb (unique key_eqb (map key df)).
Proof.
  unfold completion_by, groupby_mean, groupby.
  rewrite !map_map. simpl. apply map_id.
Qed.

(** The keys of the result are the keys of the rows, each once. *)
Lemma completion_by_keys_exact (key : Row -> K) (df : DataFrame) :
  NoDup (map fst (completion_by key_eqb key_leb key df))
  /\ forall k, In k (map fst (completion_by key_eqb key_leb key df))
               <-> exists r, In r df /\ k = key r.
Proof.
  rewrite completion_by_keys. split.
  - apply (Permutation_NoDup (Permutation_sym (sort_keys_perm _))), unique_NoDup.
  - intros k. split.
    + intros H. apply (Permutation_in _ (sort_keys_perm _)) in H.
      apply unique_In, in_map_iff in H. destruct H as (r & E & Hin).
      exists r. now split.
    + intros (r & Hin & ->).
      apply (Permutation_in _ (Permutation_sym (sort_keys_perm _))).
      apply unique_In, in_map. exact Hin.
Qed.

(** Each row of the result is the percentage of a non-empty group of rows
    of the table. *)
Lemma completion_by_group (key : Row -> K) (df : DataFrame) (k : K) (p : option Q) :
  In (k, p) (completion_by key_eqb key_leb key df) ->
  exists g, g <> [] /\ incl g df
            /\ p = times100 (series_mean (map completed g)).
Proof.
  unfold completion_by, groupby_mean, groupby. rewrite !map_map. simpl.
  intros H. apply in_map_iff in H. destruct H as (k' & E & Hk).
  inversion E; subst k' p; clear E.
  exists (filter (fun r => key_eqb (key r) k) df). split; [|split].
  - apply (Permutation_in _ (sort_keys_perm _)) in Hk.
    apply unique_In, in_map_iff in Hk. destruct Hk as (r & E & Hin).
    intros Hnil.
    assert (Hr : In r (filter (fun r => key_eqb (key r) k) df)).
    { apply filter_In. split; [exact Hin | now apply key_eqb_eq]. }
    rewrite Hnil in Hr. exact Hr.
  - apply incl_filter.
  - reflexivity.
Qed.

Lemma completion_by_percentage (key : Row -> K) (df : DataFrame) (k : K) (p : option Q) :
  Forall (fun r => binary (completed r)) df ->
  In (k, p) (completion_by key_eqb key_leb key df) ->
  is_percentage p.
Proof.
  intros Hb H. apply completion_by_group in H.
  destruct H as (g & Hne & Hincl & ->).
  apply mean_percentage.
  - destruct g; [congruence | discriminate].
  - rewrite Forall_map. rewrite Forall_forall in *.
    intros r Hr. apply Hb, Hincl, Hr.
Qed.

End GroupByFacts.

Lemma pair_eqb_eq (a b : Z * Z) : pair_eqb a b = true <-> a = b.
Proof.
  destruct a as [a1 a2], b as [b1 b2]. unfold pair_eqb. simpl.
  rewrite andb_true_iff, !Z.eqb_eq. split.
  - intros [-> ->]. reflexivity.
  - intros E. inversion E. now split.
Qed.

(** ** Daily metrics *)

(** C4. When the table has rows on the selected date, the daily completion
    percentage is the mean of their [completed] values (their sum over
    their number) times 100, and, the values being 0 or 1, the daily points
    are the number of rows with [completed] 1 times [POINTS_PER_HABIT].
    Two habits on one date, one done and one not: 50 percent and
    1 * POINTS_PER_HABIT points. *)
Theorem daily_metrics :
  (forall (df : DataFrame) (selected_date : Z),
      daily_df df selected_date <> [] ->
      daily_completion_pct df selected_date
      = Some (inject_Z (series_sum (map completed (daily_df df selected_date)))
              / inject_Z (Z.of_nat (List.length (daily_df df selected_date)))
              * 100)%Q
      /\ (Forall (fun r => binary (completed r)) (daily_df df selected_date) ->
          daily_points df selected_date
          = Z.of_nat (List.length
              (filter (fun r => completed r =? 1) (daily_df df selected_date)))
            * POINTS_PER_HABIT))
  /\ (exists q, daily_completion_pct two_habits (day 2025 3 10) = Some q
                /\ (q == 50)%Q)
  /\ daily_points two_habits (day 2025 3 10) = 1 * POINTS_PER_HABIT.
Proof.
  split; [|split].
  - intros df d Hne. unfold daily_completion_pct, daily_points.
    destruct (daily_df df d) as [|r rows] eqn:E; [congruence|].
    cbn [empty negb]. split.
    + unfold series_mean, times100, option_map. cbn [map List.length].
      now rewrite length_map.
    + intros Hb. f_equal.
      rewrite series_sum_binary by (now rewrite Forall_map).
      f_equal. clear. generalize (r :: rows). intros l.
      induction l as [|x l IH]; cbn [map filter]; [reflexivity|].
      destruct (completed x =? 1); cbn [List.length]; now rewrite IH.
  - eexists. split; [reflexivity | vm_compute; reflexivity].
  - reflexivity.
Qed.

Lemma daily_metrics_witness :
  (exists q, daily_completion_pct read_log (day 2025 1 4) = Some q
             /\ (q == 50)%Q)
  /\ daily_points read_log (day 2025 1 4) = 1 * POINTS_PER_HABIT.
Proof.
  destruct (proj1 daily_metrics read_log (day 2025 1 4)) as [Hpct Hpoints].
  - vm_compute. discriminate.
  - split.
    + eexists. split; [exact Hpct | vm_compute; reflexivity].
    + rewrite Hpoints.
      * reflexivity.
      * vm_compute. repeat (apply Forall_cons; [lia|]). apply Forall_nil.
Defined.


(** ** Completion percentages *)

(** C8. When every [completed] of the table is 0 or 1, every completion
    percentage is a number between 0 and 100: the daily one for any
    selected date, and each row of the weekly, the monthly and the
    per-habit frame. *)
Theorem completion_percentages_in_range (df : DataFrame) :
  Forall (fun r => binary (completed r)) df ->
  (forall selected_date, is_percentage (daily_completion_pct df selected_date))
  /\ (forall k p, In (k, p) (weekly df) -> is_percentage p)
  /\ (forall k p, In (k, p) (monthly df) -> is_percentage p)
  /\ (forall h p, In (h, p) (habit_progress df) -> is_percentage p).
Proof.
  intros Hb. split; [|split; [|split]].
  - intros d. unfold daily_completion_pct.
    destruct (daily_df df d) as [|r rows] eqn:E; cbn [empty negb].
    + exists 0%Q. split; [reflexivity | split; lra].
    + apply mean_percentage; [discriminate|].
      rewrite Forall_map, <- E. unfold daily_df.
      rewrite Forall_forall in *. intros x Hx.
      apply filter_In in Hx. apply Hb, Hx.
  - intros k p. apply (completion_by_percentage _ _ pair_eqb_eq _ _ _ _ Hb).
  - intros k p. apply (completion_by_percentage _ _ pair_eqb_eq _ _ _ _ Hb).
  - intros h p. apply (completion_by_percentage _ _ String.eqb_eq _ _ _ _ Hb).
Qed.

Lemma completion_percentages_in_range_witness :
  (forall selected_date, is_percentage (daily_completion_pct read_log selected_date))
  /\ (forall k p, In (k, p) (weekly read_log) -> is_percentage p)
  /\ (forall k p, In (k, p) (monthly read_log) -> is_percentage p)
  /\ (forall h p, In (h, p) (habit_progress read_log) -> is_percentage p).
Proof.
  apply (completion_percentages_in_range read_log).
  unfold read_log, binary.
  repeat (apply Forall_cons; [simpl; lia|]). apply Forall_nil.
Defined.

(** ** Period keys *)


(** C2. The weekly frame at the turn of a year.  2024-12-30 belongs to
    ISO week 1 of ISO year 2025, and 2024-01-01 to ISO week 1 of 2024.
    The weekly tab pairs the ISO week with the calendar year, so both
    rows fall under the one key (2024, 1), and the frame has a single
    row, the mean of the two. *)
Theorem weekly_key_is_not_iso_year :
  map iso_week_key year_end_log = [(2024, 1); (2025, 1)]
  /\ map week_key year_end_log = [(2024, 1); (2024, 1)]
  /\ map fst (weekly year_end_log) = [(2024, 1)]
  /\ exists q, map snd (weekly year_end_log) = [Some q] /\ (q == 50)%Q.
Proof.
  repeat split.
  eexists. split; [reflexivity | vm_compute; reflexivity].
Qed.

(** * Beyond the analytics: writes, the daily tab, the monthly average *)

(** ** [save_completion] *)

Lemma where_key_true (d : Z) (h : string) (r : Row) :
  where_key d h r = true <-> date r = d /\ habit_name r = h.
Proof.
  unfold where_key. now rewrite andb_true_iff, Z.eqb_eq, String.eqb_eq.
Qed.

Lemma where_key_false (d : Z) (h : string) (r : Row) :
  where_key d h r = false <-> date r <> d \/ habit_name r <> h.
Proof.
  unfold where_key. rewrite andb_false_iff, Z.eqb_neq, String.eqb_neq. tauto.
Qed.

(** X1. An update whose key (date, habit) is in no row of the table
    leaves the table as it is: nothing is inserted, nothing fails. *)
Theorem save_completion_missing_key
    (d : Z) (h : string) (c : Z) (db : DataFrame) :
  (forall r, In r db -> date r = d -> habit_name r <> h) ->
  save_completion d h c db = db.
Proof.
  intros Hno. unfold save_completion.
  rewrite <- (map_id db) at 2. apply map_ext_in.
  intros r Hr. destruct (where_key d h r) eqn:E; [|reflexivity].
  apply where_key_true in E. destruct E as [Ed Eh].
  exfalso. exact (Hno r Hr Ed Eh).
Qed.

Lemma save_completion_missing_key_witness :
  save_completion (day 2025 1 4) "Swim" 1 read_log = read_log.
Proof.
  apply (save_completion_missing_key (day 2025 1 4) "Swim" 1 read_log).
  intros r Hr _. simpl in Hr.
  repeat (destruct Hr as [<-|Hr]; [discriminate|]).
  destruct Hr.
Defined.

(** X2. An update never adds, removes, moves or re-keys a row: the
    columns [date] and [habit_name] of the table are what they were. *)
Theorem save_completion_keeps_keys
    (d : Z) (h : string) (c : Z) (db : DataFrame) :
  map date (save_completion d h c db) = map date db
  /\ map habit_name (save_completion d h c db) = map habit_name db.
Proof.
  unfold save_completion. rewrite !map_map.
  split; apply map_ext; intros r; now destruct (where_key d h r).
Qed.

Lemma filter_where_key_save (d : Z) (h : string) (c : Z) (db : DataFrame)
    (p : Row -> bool) :
  (forall r c', p (mkRow (date r) (habit_name r) c') = p r) ->
  filter p (save_completion d h c db)
  = save_completion d h c (filter p db).
Proof.
  intros Hp. unfold save_completion.
  induction db as [|r db IH]; simpl; [reflexivity|].
  replace (p (if where_key d h r then mkRow (date r) (habit_name r) c else r))
    with (p r) by (destruct (where_key d h r); [now rewrite Hp | reflexivity]).
  destruct (p r); simpl; now rewrite IH.
Qed.

(** X3. After an update, every row with the key reads the value written,
    there are as many of them as before, and the rows with another key
    are the rows that were there. *)
Theorem save_completion_read_back
    (d : Z) (h : string) (c : Z) (db : DataFrame) :
  Forall (fun r => completed r = c)
         (filter (where_key d h) (save_completion d h c db))
  /\ List.length (filter (where_key d h) (save_completion d h c db))
     = List.length (filter (where_key d h) db)
  /\ filter (fun r => negb (where_key d h r)) (save_completion d h c db)
     = filter (fun r => negb (where_key d h r)) db.
Proof.
  rewrite !filter_where_key_save by reflexivity.
  unfold save_completion. split; [|split].
  - rewrite Forall_map, Forall_forall. intros r Hr.
    apply filter_In in Hr. destruct Hr as [_ E]. now rewrite E.
  - apply length_map.
  - rewrite <- (map_id (filter _ db)) at 2. apply map_ext_in.
    intros r Hr. apply filter_In in Hr. destruct Hr as [_ E].
    apply negb_true_iff in E. now rewrite E.
Qed.

(** X4. Of two updates of one key the last one wins; in particular an
    update done twice is the update done once. *)
Theorem save_completion_last_write_wins
    (d : Z) (h : string) (c1 c2 : Z) (db : DataFrame) :
  save_completion d h c2 (save_completion d h c1 db) = save_completion d h c2 db.
Proof.
  unfold save_completion. rewrite map_map. apply map_ext. intros r.
  destruct (where_key d h r) eqn:E; [|now rewrite E].
  unfold where_key in *. simpl. now rewrite E.
Qed.

(** X5. Updates of two different keys can be done in either order. *)
Theorem save_completion_commutes
    (d1 d2 : Z) (h1 h2 : string) (c1 c2 : Z) (db : DataFrame) :
  d1 <> d2 \/ h1 <> h2 ->
  save_completion d1 h1 c1 (save_completion d2 h2 c2 db)
  = save_completion d2 h2 c2 (save_completion d1 h1 c1 db).
Proof.
  intros Hne. unfold save_completion. rewrite !map_map. apply map_ext. intros r.
  destruct (where_key d1 h1 r) eqn:E1; destruct (where_key d2 h2 r) eqn:E2;
    unfold where_key in *; simpl; rewrite ?E1, ?E2; try reflexivity.
  exfalso. apply andb_true_iff in E1, E2.
  rewrite Z.eqb_eq, String.eqb_eq in E1, E2.
  destruct E1 as [<- <-], E2 as [<- <-]. tauto.
Qed.

Lemma save_completion_commutes_witness :
  save_completion (day 2025 1 4) "Read" 0
    (save_completion (day 2025 1 4) "Exercise" 1 read_log)
  = save_completion (day 2025 1 4) "Exercise" 1
      (save_completion (day 2025 1 4) "Read" 0 read_log).
Proof.
  apply (save_completion_commutes (day 2025 1 4) (day 2025 1 4)
           "Read" "Exercise" 0 1 read_log).
  right. discriminate.
Defined.

(** *** Writes and the streak *)

Lemma save_completion_In (d : Z) (h : string) (c : Z) (db : DataFrame) (x : Row) :
  In x (save_completion d h c db) ->
  exists y, In y db /\ date x = date y /\ habit_name x = habit_name y
            /\ (if where_key d h y then completed x = c else x = y).
Proof.
  unfold save_completion. rewrite in_map_iff. intros (y & E & Hy).
  exists y. split; [exact Hy|].
  destruct (where_key d h y); subst x; simpl; auto.
Qed.

Lemma filter_other_habit_save (d : Z) (h h' : string) (c : Z) (db : DataFrame) :
  h' <> h ->
  filter (fun r => String.eqb (habit_name r) h') (save_completion d h c db)
  = filter (fun r => String.eqb (habit_name r) h') db.
Proof.
  intros Hne. rewrite filter_where_key_save by reflexivity.
  unfold save_completion.
  rewrite <- (map_id (filter _ db)) at 2. apply map_ext_in.
  intros r Hr. apply filter_In in Hr. destruct Hr as [_ E].
  apply String.eqb_eq in E.
  destruct (where_key d h r) eqn:K; [|reflexivity].
  apply where_key_true in K. destruct K as [_ K]. congruence.
Qed.

(** X6. An update of one habit leaves the streak of every other habit
    as it is. *)
Theorem save_completion_other_streaks
    (d : Z) (h h' : string) (c : Z) (db : DataFrame) :
  h' <> h ->
  calculate_streak (save_completion d h c db) h' = calculate_streak db h'.
Proof.
  intros Hne. unfold calculate_streak, calculate_streak_with.
  now rewrite filter_other_habit_save.
Qed.

Lemma save_completion_other_streaks_witness :
  calculate_streak (save_completion (day 2025 1 4) "Exercise" 1 read_log) "Read"
  = calculate_streak read_log "Read".
Proof.
  apply (save_completion_other_streaks (day 2025 1 4) "Exercise" "Read" 1 read_log).
  discriminate.
Defined.

(** The last row of an ascending list has the latest date. *)
Lemma sorted_last_latest (l : list Row) (x : Row) :
  StronglySorted date_le (l ++ [x]) -> forall y, In y l -> date y <= date x.
Proof.
  induction l as [|a l IH]; simpl; intros Hs y Hy; [destruct Hy|].
  inversion Hs as [|? ? Hs' Ha]; subst.
  destruct Hy as [<-|Hy].
  - rewrite Forall_forall in Ha. apply (Ha x). apply in_or_app. right. now left.
  - now apply IH.
Qed.

(** The streak is 0 exactly when the most recent row of the habit is not
    completed. *)
Lemma streak_zero_iff_latest (df : DataFrame) (habit : string)
    (older : list Row) (x : Row) :
  history df habit = older ++ [x] ->
  (calculate_streak df habit = 0 <-> completed x <> 1).
Proof.
  intros Hh. rewrite calculate_streak_history, Hh, map_app, rev_app_distr.
  simpl. destruct (Z.eqb_spec (completed x) 1) as [E|E].
  - rewrite streak_loop_acc.
    pose proof (streak_loop_bounds (rev (map completed older))). split; [lia|tauto].
  - tauto.
Qed.

Lemma history_split_last (df : DataFrame) (habit : string) (r : Row) :
  In r df -> habit_name r = habit ->
  exists older x, history df habit = older ++ [x]
                  /\ In x df /\ habit_name x = habit /\ date r <= date x.
Proof.
  intros Hin Hname.
  assert (Hr : In r (history df habit)).
  { unfold history. rewrite sort_values_In, filter_In.
    split; [exact Hin | now apply String.eqb_eq]. }
  destruct (history df habit) as [|a l] eqn:E; [destruct Hr|].
  destruct (exists_last (l := a :: l)) as (older & x & Hl); [discriminate|].
  exists older, x. rewrite Hl. split; [reflexivity|].
  assert (Hx : In x (history df habit))
    by (rewrite E, Hl; apply in_or_app; right; now left).
  apply history_In in Hx. destruct Hx as [Hx Hxn].
  repeat split; try assumption.
  rewrite Hl in Hr. apply in_app_or in Hr. destruct Hr as [Hr|[<-|[]]]; [|lia].
  apply (sorted_last_latest older x); [|exact Hr].
  rewrite <- Hl, <- E. apply sort_values_sorted.
Qed.



(** X8. Writing at a date that no row of the habit is later than, with at
    least one row of the habit on that date: the streak of the habit is 0
    afterwards exactly when the value written is not 1. *)
Theorem save_completion_at_latest_date
    (d : Z) (h : string) (c : Z) (db : DataFrame) (r : Row) :
  In r db -> date r = d -> habit_name r = h ->
  (forall x, In x db -> habit_name x = h -> date x <= d) ->
  (calculate_streak (save_completion d h c db) h = 0 <-> c <> 1).
Proof.
  intros Hin Hd Hh Hlatest.
  set (r' := mkRow (date r) (habit_name r) c).
  assert (Hin' : In r' (save_completion d h c db)).
  { unfold save_completion. apply in_map_iff. exists r. split; [|exact Hin].
    now rewrite (proj2 (where_key_true d h r) (conj Hd Hh)). }
  destruct (history_split_last (save_completion d h c db) h r' Hin' Hh)
    as (older & x & Hhist & Hx & Hxn & Hle).
  rewrite (streak_zero_iff_latest _ h older x Hhist).
  apply save_completion_In in Hx. destruct Hx as (y & Hy & Edate & Ename & Hc).
  assert (Hk : where_key d h y = true).
  { apply where_key_true. split; [|congruence].
    assert (date y <= d) by (apply Hlatest; [exact Hy | congruence]).
    simpl in Hle. lia. }
  rewrite Hk in Hc. rewrite Hc. tauto.
Qed.

Lemma save_completion_at_latest_date_witness :
  calculate_streak (save_completion (day 2025 1 4) "Read" 0 read_log) "Read" = 0
  <-> 0 <> 1.
Proof.
  apply (save_completion_at_latest_date (day 2025 1 4) "Read" 0 read_log
           (mkRow (day 2025 1 4) "Read" 1)).
  - simpl. do 3 right. now left.
  - reflexivity.
  - reflexivity.
  - intros x Hx _. simpl in Hx.
    repeat (destruct Hx as [<-|Hx]; [vm_compute; discriminate|]).
    destruct Hx.
Defined.

(** *** Writes and the daily metrics *)




(** The "Daily Points" figure is [POINTS_PER_HABIT] times the
    "Active Habits" figure, on every table and date, with or without rows
    on the date. *)
Lemma daily_points_active_habits (df : DataFrame) (selected_date : Z) :
  daily_points df selected_date
  = active_habits df selected_date * POINTS_PER_HABIT.
Proof.
  unfold daily_points, active_habits.
  now destruct (daily_df df selected_date).
Qed.

(** X10. With [completed] 0 or 1 in the table, the two slices of the
    progress ring are numbers between 0 and 100 that add up to 100. *)
Theorem progress_ring_slices (df : DataFrame) (selected_date : Z) :
  Forall (fun r => binary (completed r)) df ->
  exists done missed : Q,
    progress_ring df selected_date = (Some done, Some missed)
    /\ (0 <= done <= 100)%Q /\ (0 <= missed <= 100)%Q
    /\ (done + missed == 100)%Q.
Proof.
  intros Hb. unfold progress_ring.
  assert (Hp : is_percentage (daily_completion_pct df selected_date)).
  { unfold daily_completion_pct.
    destruct (daily_df df selected_date) as [|r rows] eqn:E; cbn [empty negb].
    - exists 0%Q. split; [reflexivity | split; lra].
    - apply mean_percentage; [discriminate|].
      rewrite Forall_map, <- E. unfold daily_df.
      rewrite Forall_forall in *. intros x Hx.
      apply filter_In in Hx. apply Hb, Hx. }
  destruct Hp as (q & -> & Hq). exists q, (100 - q)%Q. simpl.
  repeat split; lra.
Qed.

Lemma progress_ring_slices_witness :
  exists done missed : Q,
    progress_ring two_habits (day 2025 3 10) = (Some done, Some missed)
    /\ (0 <= done <= 100)%Q /\ (0 <= missed <= 100)%Q
    /\ (done + missed == 100)%Q.
Proof.
  apply (progress_ring_slices two_habits (day 2025 3 10)).
  unfold two_habits, binary.
  repeat (apply Forall_cons; [simpl; lia|]). apply Forall_nil.
Defined.

(** *** The default date *)

Lemma series_min_spec (col : list Z) :
  match series_min col with
  | None => col = []
  | Some m => In m col /\ forall d, In d col -> m <= d
  end.
Proof.
  induction col as [|d col IH]; simpl; [reflexivity|].
  destruct (series_min col) as [m|].
  - destruct IH as [Hin Hmin]. split.
    + destruct (Z.min_spec d m) as [[_ ->]|[_ ->]]; auto.
    + intros x [<-|Hx]; [lia|]. specialize (Hmin x Hx). lia.
  - subst col. split; [now left|]. intros x [<-|[]]. lia.
Qed.

(** X11. The date proposed by the side bar is missing only on the empty
    table; otherwise it is the earliest date of the table, and the table
    has rows on it, so the daily tab opens on the branch that computes
    the mean. *)
Theorem default_date_has_rows (df : DataFrame) :
  match default_date df with
  | None => df = []
  | Some d => daily_df df d <> [] /\ forall r, In r df -> d <= date r
  end.
Proof.
  unfold default_date. pose proof (series_min_spec (map date df)) as H.
  destruct (series_min (map date df)) as [m|].
  - destruct H as [Hin Hmin]. split.
    + apply in_map_iff in Hin. destruct Hin as (r & E & Hr).
      intros Hnil.
      assert (Hd : In r (daily_df df m))
        by (apply filter_In; split; [exact Hr | now apply Z.eqb_eq]).
      rewrite Hnil in Hd. exact Hd.
    + intros r Hr. apply Hmin, in_map, Hr.
  - now apply map_eq_nil in H.
Qed.

(** ** The loop of the daily tab *)


Lemma daily_habits_fold_untouched (checkbox : string -> bool) (d : Z)
    (rows : list Row) (db : DataFrame) (u : bool) :
  existsb (toggled checkbox) rows = false ->
  fold_left (daily_habit_step checkbox d) rows (db, u) = (db, u).
Proof.
  revert db u. induction rows as [|a rows IH]; intros db u; simpl; [reflexivity|].
  intros H. apply orb_false_iff in H. destruct H as [Ha Hr].
  unfold daily_habit_step at 2. fold (toggled checkbox a). rewrite Ha.
  now apply IH.
Qed.


Lemma NoDup_map_In_inj {A B : Type} (f : A -> B) (l : list A) (a b : A) :
  NoDup (map f l) -> In a l -> In b l -> f a = f b -> a = b.
Proof.
  induction l as [|x l IH]; simpl; intros Hn Ha Hb E; [destruct Ha|].
  inversion Hn as [|? ? Hx Hn']; subst.
  destruct Ha as [->|Ha], Hb as [->|Hb].
  - reflexivity.
  - exfalso. apply Hx. rewrite E. now apply in_map.
  - exfalso. apply Hx. rewrite <- E. now apply in_map.
  - now apply IH.
Qed.

Lemma find_all_false {A : Type} (f : A -> bool) (l : list A) :
  (forall x, In x l -> f x = false) -> find f l = None.
Proof.
  induction l as [|a l IH]; simpl; intros H; [reflexivity|].
  rewrite (H a) by now left. apply IH. intros x Hx. apply H. now right.
Qed.

(** The table after the loop over [rows], when no two of them are for the
    same habit: each row of the table is set by the row of [rows] that has
    its key, if that one was toggled. *)
Lemma daily_habits_fold_table (checkbox : string -> bool) (d : Z)
    (rows : list Row) :
  NoDup (map habit_name rows) ->
  forall (db : DataFrame) (u : bool),
    fst (fold_left (daily_habit_step checkbox d) rows (db, u))
    = map (fun r =>
             match find (fun row => where_key d (habit_name row) r) rows with
             | Some row =>
                 if toggled checkbox row
                 then mkRow (date r) (habit_name r) (py_int (checkbox (habit_name row)))
                 else r
             | None => r
             end) db.
Proof.
  induction rows as [|a rows IH]; intros Hn db u.
  - simpl. now rewrite map_id.
  - inversion Hn as [|? ? Ha Hn']; subst.
    assert (Hnone : forall r, where_key d (habit_name a) r = true ->
              find (fun row => where_key d (habit_name row) r) rows = None).
    { intros r Hr. apply find_all_false. intros x Hx.
      apply where_key_true in Hr. destruct Hr as [_ Hr].
      apply where_key_false. right. intros E. apply Ha.
      rewrite <- Hr, E. now apply in_map. }
    cbn [fold_left]. unfold daily_habit_step at 2. fold (toggled checkbox a).
    destruct (toggled checkbox a) eqn:Ta; cbn [fst].
    + rewrite (IH Hn'). unfold save_completion. rewrite map_map.
      apply map_ext. intros r. cbn [find].
      destruct (where_key d (habit_name a) r) eqn:K.
      * change (where_key d ?h (mkRow (date r) (habit_name r) ?c))
          with (where_key d h r).
        rewrite (Hnone r K), Ta. reflexivity.
      * reflexivity.
    + replace (db, u) with (fst (db, u), u) by reflexivity.
      rewrite (IH Hn'). apply map_ext. intros r. cbn [find].
      destruct (where_key d (habit_name a) r) eqn:K.
      * rewrite (Hnone r K), Ta. reflexivity.
      * reflexivity.
Qed.

Lemma daily_habits_table (checkbox : string -> bool) (df : DataFrame) (d : Z) :
  NoDup (map habit_name (daily_df df d)) ->
  fst (daily_habits checkbox df df d) = apply_checkboxes checkbox d df.
Proof.
  intros Hn. unfold daily_habits, apply_checkboxes.
  rewrite (daily_habits_fold_table checkbox d _ Hn).
  apply map_ext_in. intros r Hr.
  destruct (Z.eqb_spec (date r) d) as [Ed|Ed]; cbn [andb].
  - assert (Hrd : In r (daily_df df d))
      by (apply filter_In; split; [exact Hr | now apply Z.eqb_eq]).
    destruct (find (fun row => where_key d (habit_name row) r) (daily_df df d))
      as [row|] eqn:F.
    + apply find_some in F. destruct F as [Hrow K].
      apply where_key_true in K. destruct K as [_ K].
      assert (row = r)
        by (apply (NoDup_map_In_inj habit_name (daily_df df d)); auto).
      subst row. reflexivity.
    + exfalso. apply (find_none _ _ F) in Hrd.
      rewrite (proj2 (where_key_true d (habit_name r) r)) in Hrd;
        [discriminate | now split].
  - rewrite find_all_false; [reflexivity|].
    intros x _. apply where_key_false. now left.
Qed.

Lemma py_bool_py_int (b : bool) : py_bool (py_int b) = b.
Proof. now destruct b. Qed.

Lemma apply_checkboxes_agrees (checkbox : string -> bool) (d : Z)
    (db : DataFrame) (r : Row) :
  In r (apply_checkboxes checkbox d db) -> date r = d ->
  checkbox (habit_name r) = py_bool (completed r).
Proof.
  unfold apply_checkboxes. rewrite in_map_iff. intros (y & E & _) Hd.
  destruct ((date y =? d) && toggled checkbox y) eqn:C; subst r.
  - simpl. now rewrite py_bool_py_int.
  - apply andb_false_iff in C. destruct C as [C|C].
    + apply Z.eqb_neq in C. contradiction.
    + unfold toggled in C. apply negb_false_iff in C. now apply Bool.eqb_prop.
Qed.

(** X13. With one row per habit on the selected date and the frame being
    the table as stored, the loop leaves a table in which every row of
    that date stores what its check box shows, and the rows of other
    dates are as they were. *)
Theorem daily_habits_stores_checkboxes
    (checkbox : string -> bool) (df : DataFrame) (selected_date : Z) :
  NoDup (map habit_name (daily_df df selected_date)) ->
  (forall r, In r (fst (daily_habits checkbox df df selected_date)) ->
             date r = selected_date ->
             py_bool (completed r) = checkbox (habit_name r))
  /\ filter (fun r => negb (date r =? selected_date))
            (fst (daily_habits checkbox df df selected_date))
     = filter (fun r => negb (date r =? selected_date)) df.
Proof.
  intros Hn. rewrite (daily_habits_table checkbox df selected_date Hn). split.
  - intros r Hr Hd. symmetry. now apply (apply_checkboxes_agrees checkbox selected_date df).
  - unfold apply_checkboxes. induction df as [|r df IH]; [reflexivity|].
    cbn [map filter].
    assert (Hn' : NoDup (map habit_name (daily_df df selected_date))).
    { unfold daily_df in *. cbn [filter] in Hn.
      destruct (date r =? selected_date); [now inversion Hn | exact Hn]. }
    destruct (Z.eqb_spec (date r) selected_date) as [E|E]; cbn [andb negb].
    + destruct (toggled checkbox r); cbn [date];
        rewrite ?(proj2 (Z.eqb_eq _ _) E); cbn [negb]; now apply IH.
    + rewrite (proj2 (Z.eqb_neq _ _) E). cbn [negb]. f_equal. now apply IH.
Qed.

Lemma daily_habits_stores_checkboxes_witness :
  (forall r, In r (fst (daily_habits (fun _ => true) two_habits two_habits
                          (day 2025 3 10))) ->
             date r = day 2025 3 10 ->
             py_bool (completed r) = true)
  /\ filter (fun r => negb (date r =? day 2025 3 10))
            (fst (daily_habits (fun _ => true) two_habits two_habits (day 2025 3 10)))
     = filter (fun r => negb (date r =? day 2025 3 10)) two_habits.
Proof.
  apply (daily_habits_stores_checkboxes (fun _ => true) two_habits (day 2025 3 10)).
  vm_compute. repeat constructor; simpl; intuition discriminate.
Defined.

(** X14. Once the loop has run, running it again on the table it left,
    with the same check boxes, writes nothing and does not raise
    [updated]. *)
Theorem daily_habits_settles
    (checkbox : string -> bool) (df : DataFrame) (selected_date : Z) :
  NoDup (map habit_name (daily_df df selected_date)) ->
  daily_habits checkbox
    (fst (daily_habits checkbox df df selected_date))
    (fst (daily_habits checkbox df df selected_date)) selected_date
  = (fst (daily_habits checkbox df df selected_date), false).
Proof.
  intros Hn. rewrite (daily_habits_table checkbox df selected_date Hn).
  unfold daily_habits at 1. apply daily_habits_fold_untouched.
  destruct (existsb _ _) eqn:E; [|reflexivity].
  apply existsb_exists in E. destruct E as (row & Hrow & Ht).
  apply filter_In in Hrow. destruct Hrow as [Hrow Hd]. apply Z.eqb_eq in Hd.
  unfold toggled in Ht.
  rewrite (apply_checkboxes_agrees checkbox selected_date df row Hrow Hd) in Ht.
  now rewrite Bool.eqb_reflx in Ht.
Qed.

Lemma daily_habits_settles_witness :
  daily_habits (fun _ => true)
    (fst (daily_habits (fun _ => true) two_habits two_habits (day 2025 3 10)))
    (fst (daily_habits (fun _ => true) two_habits two_habits (day 2025 3 10)))
    (day 2025 3 10)
  = (fst (daily_habits (fun _ => true) two_habits two_habits (day 2025 3 10)), false).
Proof.
  apply (daily_habits_settles (fun _ => true) two_habits (day 2025 3 10)).
  vm_compute. repeat constructor; simpl; intuition discriminate.
Defined.

(** ** The monthly average *)

Lemma float_sum_bounds (vals : list Q) :
  Forall (fun q => 0 <= q <= 100)%Q vals ->
  (0 <= float_sum vals <= 100 * inject_Z (Z.of_nat (List.length vals)))%Q.
Proof.
  induction 1 as [|q vals Hq _ IH]; cbn [float_sum List.length].
  - split; [lra | unfold Qle; simpl; lia].
  - assert (E : (inject_Z (Z.of_nat (S (List.length vals)))
                 == inject_Z (Z.of_nat (List.length vals)) + 1)%Q).
    { rewrite Nat2Z.inj_succ. unfold Z.succ. now rewrite inject_Z_plus. }
    rewrite E. lra.
Qed.

Lemma dropna_percentages (col : list (option Q)) :
  Forall is_percentage col ->
  Forall (fun q => 0 <= q <= 100)%Q (dropna col)
  /\ List.length (dropna col) = List.length col.
Proof.
  induction 1 as [|x col (q & -> & Hq) _ [IH1 IH2]]; cbn [dropna List.length].
  - split; [constructor | reflexivity].
  - split; [now constructor | now rewrite IH2].
Qed.

Lemma float_mean_percentage (col : list (option Q)) :
  Forall is_percentage col -> col <> [] -> is_percentage (float_mean col).
Proof.
  intros Hp Hne. destruct (dropna_percentages col Hp) as [Hv Hlen].
  unfold float_mean. destruct (dropna col) as [|q vals] eqn:E.
  - destruct col; [congruence | discriminate].
  - eexists. split; [reflexivity|].
    pose proof (float_sum_bounds (q :: vals) Hv) as [H0 H1].
    assert (Hn : (0 < inject_Z (Z.of_nat (List.length (q :: vals))))%Q)
      by (unfold Qlt; simpl; lia).
    split.
    + apply Qle_shift_div_l; [exact Hn | lra].
    + apply Qle_shift_div_r; [exact Hn | lra].
Qed.

Lemma monthly_nil_iff (df : DataFrame) : monthly df = [] <-> df = [].
Proof.
  split; [|now intros ->].
  intros H. destruct df as [|r df]; [reflexivity|]. exfalso.
  destruct (completion_by_keys_exact pair_eqb pair_leb pair_eqb_eq month_key (r :: df))
    as [_ Hk].
  assert (Hin : In (month_key r) (map fst (monthly (r :: df))))
    by (apply Hk; exists r; split; [now left | reflexivity]).
  rewrite H in Hin. exact Hin.
Qed.

Lemma monthly_rows_numbers (df : DataFrame) (x : option Q) :
  In x (map snd (monthly df)) -> exists q, x = Some q.
Proof.
  rewrite in_map_iff. intros ([k p] & <- & Hin).
  apply (completion_by_group _ _ pair_eqb_eq) in Hin.
  destruct Hin as (g & Hne & _ & ->). simpl.
  destruct g; [congruence|]. simpl. eexists. reflexivity.
Qed.

(** X15. The average monthly completion is NaN exactly on the empty
    table (where the daily metrics default to 0). *)
Theorem avg_monthly_nan_iff_empty (df : DataFrame) :
  avg_monthly df = None <-> df = [].
Proof.
  split; [|now intros ->].
  intros H. apply monthly_nil_iff.
  destruct (monthly df) as [|[k p] rows] eqn:E; [reflexivity|]. exfalso.
  destruct (monthly_rows_numbers df p) as (q & ->).
  { rewrite E. now left. }
  unfold avg_monthly, float_mean in H. rewrite E in H. simpl in H. discriminate.
Qed.

(** X16. On a non-empty table with [completed] 0 or 1, the average
    monthly completion is a number between 0 and 100. *)
Theorem avg_monthly_in_range (df : DataFrame) :
  df <> [] ->
  Forall (fun r => binary (completed r)) df ->
  is_percentage (avg_monthly df).
Proof.
  intros Hne Hb. unfold avg_monthly. apply float_mean_percentage.
  - rewrite Forall_forall. intros x Hx.
    apply in_map_iff in Hx. destruct Hx as ([k p] & <- & Hin).
    apply (completion_by_percentage _ _ pair_eqb_eq _ _ _ _ Hb Hin).
  - intros H. apply map_eq_nil in H. apply monthly_nil_iff in H. contradiction.
Qed.

Lemma avg_monthly_in_range_witness : is_percentage (avg_monthly read_log).
Proof.
  apply (avg_monthly_in_range read_log).
  - discriminate.
  - unfold read_log, binary.
    repeat (apply Forall_cons; [simpl; lia|]). apply Forall_nil.
Defined.

(** * The order of the rows *)

(** ** Orders of the keys *)

Lemma pair_leb_total (a b : Z * Z) : pair_leb a b = true \/ pair_leb b a = true.
Proof.
  destruct a as [a1 a2], b as [b1 b2]. unfold pair_leb. simpl.
  rewrite !orb_true_iff, !andb_true_iff, !Z.ltb_lt, !Z.eqb_eq, !Z.leb_le. lia.
Qed.

Lemma pair_leb_trans (a b c : Z * Z) :
  pair_leb a b = true -> pair_leb b c = true -> pair_leb a c = true.
Proof.
  destruct a as [a1 a2], b as [b1 b2], c as [c1 c2]. unfold pair_leb. simpl.
  rewrite !orb_true_iff, !andb_true_iff, !Z.ltb_lt, !Z.eqb_eq, !Z.leb_le. lia.
Qed.

Lemma pair_leb_antisym (a b : Z * Z) :
  pair_leb a b = true -> pair_leb b a = true -> a = b.
Proof.
  destruct a as [a1 a2], b as [b1 b2]. unfold pair_leb. simpl.
  rewrite !orb_true_iff, !andb_true_iff, !Z.ltb_lt, !Z.eqb_eq, !Z.leb_le.
  intros H1 H2. f_equal; lia.
Qed.

Lemma string_compare_trans (s1 s2 s3 : string) :
  String.compare s1 s2 <> Gt -> String.compare s2 s3 <> Gt ->
  String.compare s1 s3 <> Gt.
Proof.
  revert s2 s3. induction s1 as [|a s1 IH]; intros [|b s2] [|c s3];
    simpl; try congruence.
  unfold Ascii.compare.
  destruct (N.compare_spec (Ascii.N_of_ascii a) (Ascii.N_of_ascii b)) as [Eab|Lab|Gab];
    destruct (N.compare_spec (Ascii.N_of_ascii b) (Ascii.N_of_ascii c)) as [Ebc|Lbc|Gbc];
    destruct (N.compare_spec (Ascii.N_of_ascii a) (Ascii.N_of_ascii c)) as [Eac|Lac|Gac];
    try congruence; try lia.
  apply IH.
Qed.

Lemma string_leb_trans (s1 s2 s3 : string) :
  String.leb s1 s2 = true -> String.leb s2 s3 = true -> String.leb s1 s3 = true.
Proof.
  unfold String.leb. intros H1 H2.
  pose proof (string_compare_trans s1 s2 s3) as H.
  destruct (String.compare s1 s2); destruct (String.compare s2 s3);
    destruct (String.compare s1 s3); try reflexivity; try discriminate;
    exfalso; apply H; congruence.
Qed.

(** ** Sorted keys *)

Section SortedKeys.

Context {K : Type}.
Variable key_eqb : K -> K -> bool.
Variable key_leb : K -> K -> bool.
Hypothesis key_eqb_eq : forall a b, key_eqb a b = true <-> a = b.
Hypothesis key_leb_total : forall a b, key_leb a b = true \/ key_leb b a = true.
Hypothesis key_leb_trans :
  forall a b c, key_leb a b = true -> key_leb b c = true -> key_leb a c = true.
Hypothesis key_leb_antisym :
  forall a b, key_leb a b = true -> key_leb b a = true -> a = b.

Lemma insert_key_sorted (k : K) (l : list K) :
  StronglySorted (leb_order key_leb) l ->
  StronglySorted (leb_order key_leb) (insert_key key_leb k l).
Proof.
  induction 1 as [|x l Hs IH Hx]; simpl.
  - repeat constructor.
  - destruct (key_leb k x) eqn:E.
    + constructor; [now constructor|].
      constructor; [exact E|].
      eapply Forall_impl; [|exact Hx].
      intros y Hy. exact (key_leb_trans k x y E Hy).
    + constructor; [exact IH|].
      apply (Permutation_Forall (Permutation_sym (insert_key_perm key_leb k l))).
      constructor; [|exact Hx].
      destruct (key_leb_total k x) as [H|H]; [congruence | exact H].
Qed.

Lemma sort_keys_sorted (ks : list K) :
  StronglySorted (leb_order key_leb) (sort_keys key_leb ks).
Proof.
  induction ks; simpl; [constructor | now apply insert_key_sorted].
Qed.

Lemma sorted_keys_unique (l1 l2 : list K) :
  StronglySorted (leb_order key_leb) l1 ->
  StronglySorted (leb_order key_leb) l2 ->
  Permutation l1 l2 -> l1 = l2.
Proof.
  revert l2. induction l1 as [|a l1 IH]; intros l2 S1 S2 P.
  - now apply Permutation_nil in P.
  - destruct l2 as [|b l2].
    + now apply Permutation_sym, Permutation_nil in P.
    + inversion S1 as [|? ? S1' F1]; subst.
      inversion S2 as [|? ? S2' F2]; subst.
      assert (Hab : a = b).
      { assert (Hb : In b (a :: l1))
          by (apply (Permutation_in _ (Permutation_sym P)); now left).
        destruct Hb as [Hb|Hb]; [exact Hb|].
        assert (Ha : In a (b :: l2)) by (apply (Permutation_in _ P); now left).
        destruct Ha as [Ha|Ha]; [now symmetry|].
        rewrite Forall_forall in F1, F2.
        apply key_leb_antisym; [apply (F1 _ Hb) | apply (F2 _ Ha)]. }
      subst b. f_equal.
      apply IH; auto. eapply Permutation_cons_inv; exact P.
Qed.

Lemma sorted_NoDup_strict (l : list K) :
  StronglySorted (leb_order key_leb) l -> NoDup l ->
  StronglySorted (ltb_order key_leb) l.
Proof.
  induction 1 as [|a l Hs IH Ha]; intros Hn; constructor.
  - apply IH. now inversion Hn.
  - inversion Hn as [|? ? Hnotin _]; subst.
    rewrite Forall_forall in *. intros x Hx. split; [now apply Ha|].
    intros ->. contradiction.
Qed.

Lemma completion_by_keys_ascending (key : Row -> K) (df : DataFrame) :
  StronglySorted (ltb_order key_leb)
    (map fst (completion_by key_eqb key_leb key df)).
Proof.
  apply sorted_NoDup_strict.
  - rewrite completion_by_keys. apply sort_keys_sorted.
  - apply (completion_by_keys_exact key_eqb key_leb key_eqb_eq key df).
Qed.

Lemma sort_keys_unique_perm (ks ks' : list K) :
  Permutation ks ks' ->
  sort_keys key_leb (unique key_eqb ks) = sort_keys key_leb (unique key_eqb ks').
Proof.
  intros P. apply sorted_keys_unique; try apply sort_keys_sorted.
  apply perm_trans with (unique key_eqb ks); [apply sort_keys_perm|].
  apply perm_trans with (unique key_eqb ks');
    [|apply Permutation_sym, sort_keys_perm].
  apply NoDup_Permutation; try apply (unique_NoDup key_eqb key_eqb_eq).
  intros k. rewrite !(unique_In key_eqb key_leb key_eqb_eq).
  split; apply Permutation_in; [exact P | now apply Permutation_sym].
Qed.

End SortedKeys.

(** ** The frames do not depend on the order of the rows *)

Lemma Permutation_filter_rows {A : Type} (p : A -> bool) (l l' : list A) :
  Permutation l l' -> Permutation (filter p l) (filter p l').
Proof.
  induction 1 as [|x l l' _ IH|x y l|l1 l2 l3 _ IH1 _ IH2]; simpl.
  - constructor.
  - destruct (p x); [now constructor | exact IH].
  - destruct (p x), (p y); try apply Permutation_refl. apply perm_swap.
  - now apply perm_trans with (filter p l2).
Qed.

Lemma series_sum_perm (c c' : list Z) :
  Permutation c c' -> series_sum c = series_sum c'.
Proof.
  induction 1; simpl; lia.
Qed.

Lemma series_mean_perm (c c' : list Z) :
  Permutation c c' -> series_mean c = series_mean c'.
Proof.
  intros P. unfold series_mean.
  rewrite (series_sum_perm c c' P), (Permutation_length P).
  destruct c, c'; try reflexivity.
  - now apply Permutation_nil in P.
  - now apply Permutation_sym, Permutation_nil in P.
Qed.

Lemma completion_by_perm {K : Type} (key_eqb key_leb : K -> K -> bool)
    (key : Row -> K) (df df' : DataFrame) :
  (forall a b, key_eqb a b = true <-> a = b) ->
  (forall a b, key_leb a b = true \/ key_leb b a = true) ->
  (forall a b c, key_leb a b = true -> key_leb b c = true -> key_leb a c = true) ->
  (forall a b, key_leb a b = true -> key_leb b a = true -> a = b) ->
  Permutation df df' ->
  completion_by key_eqb key_leb key df = completion_by key_eqb key_leb key df'.
Proof.
  intros Heq Htot Htr Hanti P.
  unfold completion_by, groupby_mean, groupby. rewrite !map_map. simpl.
  rewrite (sort_keys_unique_perm key_eqb key_leb Heq Htot Htr Hanti
             (map key df) (map key df') (Permutation_map key P)).
  apply map_ext. intros k. do 2 f_equal.
  apply series_mean_perm, Permutation_map, Permutation_filter_rows, P.
Qed.

(** X17. The daily metrics and the weekly, monthly and per-habit frames
    are the same for two tables that hold the same rows in a different
    order (the order in which [SELECT * FROM habits] returns them). *)
Theorem aggregates_ignore_row_order (df df' : DataFrame) :
  Permutation df df' ->
  (forall selected_date,
      daily_completion_pct df selected_date = daily_completion_pct df' selected_date
      /\ daily_points df selected_date = daily_points df' selected_date)
  /\ weekly df = weekly df'
  /\ monthly df = monthly df'
  /\ habit_progress df = habit_progress df'.
Proof.
  intros P. split; [|split; [|split]].
  - intros d. unfold daily_completion_pct, daily_points.
    pose proof (Permutation_filter_rows (fun r => date r =? d) df df' P) as Pd.
    fold (daily_df df d) in Pd. fold (daily_df df' d) in Pd.
    rewrite (series_mean_perm _ _ (Permutation_map completed Pd)).
    rewrite (series_sum_perm _ _ (Permutation_map completed Pd)).
    replace (empty (daily_df df' d)) with (empty (daily_df df d)); [now split|].
    destruct (daily_df df d), (daily_df df' d); try reflexivity.
    + now apply Permutation_nil in Pd.
    + now apply Permutation_sym, Permutation_nil in Pd.
  - now apply (completion_by_perm pair_eqb pair_leb week_key df df'
                 pair_eqb_eq pair_leb_total pair_leb_trans pair_leb_antisym).
  - now apply (completion_by_perm pair_eqb pair_leb month_key df df'
                 pair_eqb_eq pair_leb_total pair_leb_trans pair_leb_antisym).
  - now apply (completion_by_perm String.eqb String.leb habit_name df df'
                 String.eqb_eq String.leb_total string_leb_trans
                 String.leb_antisym).
Qed.

Lemma aggregates_ignore_row_order_witness :
  (forall selected_date,
      daily_completion_pct read_log selected_date
      = daily_completion_pct (rev read_log) selected_date
      /\ daily_points read_log selected_date
         = daily_points (rev read_log) selected_date)
  /\ weekly read_log = weekly (rev read_log)
  /\ monthly read_log = monthly (rev read_log)
  /\ habit_progress read_log = habit_progress (rev read_log).
Proof.
  apply (aggregates_ignore_row_order read_log (rev read_log)).
  apply Permutation_rev.
Defined.

(** X18. When a habit has at most one row per date, its streak is the
    same for two tables that hold the same rows in a different order. *)
Theorem streak_ignores_row_order (df df' : DataFrame) (habit : string) :
  Permutation df df' ->
  NoDup (map date (filter (fun r => String.eqb (habit_name r) habit) df)) ->
  calculate_streak df habit = calculate_streak df' habit.
Proof.
  intros P Hn. unfold calculate_streak, calculate_streak_with.
  pose proof (Permutation_filter_rows
                (fun r => String.eqb (habit_name r) habit) df df' P) as Pf.
  set (l := filter _ df) in *. set (l' := filter _ df') in *.
  replace (sort_values l') with (sort_values l); [reflexivity|].
  apply sorted_by_date_unique; try apply sort_values_sorted.
  - apply perm_trans with l; [apply sort_values_perm|].
    apply perm_trans with l'; [exact Pf | apply Permutation_sym, sort_values_perm].
  - apply (Permutation_NoDup (l := map date l)); [|exact Hn].
    apply Permutation_map, Permutation_sym, sort_values_perm.
Qed.

Lemma streak_ignores_row_order_witness :
  calculate_streak read_log "Read" = calculate_streak (rev read_log) "Read".
Proof.
  apply (streak_ignores_row_order read_log (rev read_log) "Read").
  - apply Permutation_rev.
  - vm_compute. repeat constructor; simpl; intuition discriminate.
Defined.

(** X19. The rows of the weekly and of the monthly frame come in strictly
    ascending order of their key, compared as a tuple, and the rows of the
    per-habit frame in strictly ascending order of the habit name. *)
Theorem frames_in_ascending_key_order (df : DataFrame) :
  StronglySorted (ltb_order pair_leb) (map fst (weekly df))
  /\ StronglySorted (ltb_order pair_leb) (map fst (monthly df))
  /\ StronglySorted (ltb_order String.leb) (map fst (habit_progress df)).
Proof.
  split; [|split].
  - apply (completion_by_keys_ascending pair_eqb pair_leb
             pair_eqb_eq pair_leb_total pair_leb_trans week_key df).
  - apply (completion_by_keys_ascending pair_eqb pair_leb
             pair_eqb_eq pair_leb_total pair_leb_trans month_key df).
  - apply (completion_by_keys_ascending String.eqb String.leb
             String.eqb_eq String.leb_total string_leb_trans habit_name df).
Qed.

(** * The ranking and the streak *)

Lemma completion_by_lookup {K : Type} (key_eqb key_leb : K -> K -> bool)
    (key : Row -> K) (df : DataFrame) (k : K) (p : option Q) :
  In (k, p) (completion_by key_eqb key_leb key df) ->
  p = times100 (series_mean (map completed
                               (filter (fun r => key_eqb (key r) k) df))).
Proof.
  unfold completion_by, groupby_mean, groupby. rewrite !map_map. simpl.
  intros H. apply in_map_iff in H. destruct H as (k' & E & _).
  now inversion E.
Qed.

Lemma ratio_full (s n : Z) :
  0 < n -> ((inject_Z s / inject_Z n * 100 == 100)%Q <-> s = n).
Proof.
  intros Hn. destruct n as [|n|n]; try lia.
  unfold Qeq, Qdiv, Qmult, Qinv, inject_Z. simpl. split; intros H; nia.
Qed.

Lemma series_sum_full (cs : list Z) :
  Forall binary cs ->
  (series_sum cs = Z.of_nat (List.length cs) <-> Forall (fun c => c = 1) cs).
Proof.
  intros Hb. induction Hb as [|c cs Hc Hb IH]; cbn [series_sum List.length].
  - split; [constructor | reflexivity].
  - pose proof (series_sum_binary_bounds cs Hb) as Hbd.
    destruct Hc as [-> | ->]; split; intros H.
    + lia.
    + inversion H; discriminate.
    + constructor; [reflexivity|]. apply IH. lia.
    + inversion H as [|? ? _ H']; subst. apply IH in H'. lia.
Qed.

Lemma streak_loop_full (cs : list Z) :
  streak_loop cs 0 = Z.of_nat (List.length cs) <-> Forall (fun c => c = 1) cs.
Proof.
  destruct (streak_loop_shape cs)
    as [[Hall Hn]|(ones & c & rest & -> & Hones & Hc & Hn)].
  - tauto.
  - rewrite Hn, length_app. cbn [List.length]. split; [lia|].
    intros H. apply Forall_app in H. destruct H as [_ H].
    inversion H; contradiction.
Qed.

(** X20. With [completed] 0 or 1 in the table, a habit stands at 100
    percent in the per-habit frame exactly when its streak counts every
    one of its rows. *)
Theorem full_completion_iff_full_streak
    (df : DataFrame) (habit : string) (q : Q) :
  Forall (fun r => binary (completed r)) df ->
  In (habit, Some q) (habit_progress df) ->
  ((q == 100)%Q
   <-> calculate_streak df habit
       = Z.of_nat (List.length
           (filter (fun r => String.eqb (habit_name r) habit) df))).
Proof.
  intros Hb Hin.
  pose proof (completion_by_group _ _ String.eqb_eq _ _ _ _ Hin) as Hg.
  apply completion_by_lookup in Hin.
  set (l := filter (fun r => String.eqb (habit_name r) habit) df) in *.
  assert (Hbl : Forall binary (map completed l)).
  { rewrite Forall_map, Forall_forall. rewrite Forall_forall in Hb.
    intros r Hr. apply Hb. unfold l in Hr. now apply filter_In in Hr. }
  assert (Hones : Forall (fun c => c = 1) (rev (map completed (sort_values l)))
                  <-> Forall (fun c => c = 1) (map completed l)).
  { rewrite !Forall_forall. split; intros H c Hc; apply H.
    - rewrite <- in_rev. rewrite in_map_iff in *. destruct Hc as (r & E & Hr).
      exists r. split; [exact E | exact (proj2 (sort_values_In _ _) Hr)].
    - rewrite <- in_rev in Hc. rewrite in_map_iff in *. destruct Hc as (r & E & Hr).
      exists r. split; [exact E | exact (proj1 (sort_values_In _ _) Hr)]. }
  unfold calculate_streak, calculate_streak_with. fold l.
  replace (List.length l)
    with (List.length (rev (map completed (sort_values l))))
    by (now rewrite length_rev, length_map, sort_values_length).
  rewrite streak_loop_full, Hones, <- (series_sum_full _ Hbl).
  destruct l as [|r l'] eqn:El.
  - simpl in Hin. discriminate.
  - unfold series_mean, times100, option_map in Hin. cbn [map] in Hin.
    injection Hin as Hq. cbn [map]. rewrite Hq.
    rewrite ratio_full by (cbn [List.length]; lia).
    reflexivity.
Qed.

Lemma full_completion_iff_full_streak_witness :
  ((400 # 4 == 100)%Q
   <-> calculate_streak exercise_log "Exercise"
       = Z.of_nat (List.length
           (filter (fun r => String.eqb (habit_name r) "Exercise") exercise_log))).
Proof.
  apply (full_completion_iff_full_streak exercise_log "Exercise" (400 # 4)).
  - unfold exercise_log, binary.
    repeat (apply Forall_cons; [simpl; lia|]). apply Forall_nil.
  - vm_compute. left. reflexivity.
Defined.

(** * Labels of the periods *)

(** ** The month of a date *)

Lemma dt_month_range (d : Z) : 1 <= Calendar.dt_month d <= 12.
Proof.
  unfold Calendar.dt_month, Calendar.ord2ymd.
  set (n := (((d - 1) mod 146097) mod 36524) mod 1461 mod 365).
  assert (Hn : 0 <= n < 365) by (apply Z.mod_pos_bound; lia).
  destruct (_ || _); [simpl; lia|].
  assert (Hm : 1 <= Z.shiftr (n + 50) 5 <= 12).
  { rewrite Z.shiftr_div_pow2 by lia. change (2 ^ 5) with 32.
    assert ((n + 50) / 32 < 13) by (apply Z.div_lt_upper_bound; lia).
    assert (1 <= (n + 50) / 32) by (apply Z.div_le_lower_bound; lia).
    lia. }
  set (month := Z.shiftr (n + 50) 5) in *.
  match goal with
  | |- context [n <? ?p] => destruct (Z.ltb_spec n p) as [Hlt|_]
  end; cbn [fst snd]; [|lia].
  destruct (Z.eq_dec month 1) as [E|E]; [|lia].
  rewrite E in Hlt. simpl in Hlt. lia.
Qed.

(** ** Decimal notation *)

Lemma astype_str_inj (a b : Z) : astype_str a = astype_str b -> a = b.
Proof.
  unfold astype_str. intros E. apply DecimalZ.to_int_inj.
  assert (Hi : forall z,
    DecimalString.NilZero.int_of_string
      (DecimalString.NilZero.string_of_int (Z.to_int z)) = Some (Z.to_int z)).
  { intros [|p|p]; [reflexivity| |];
      apply DecimalString.NilZero.isi; simpl; intros H; inversion H;
      now apply (DecimalPos.Unsigned.to_uint_nonnil p). }
  pose proof (Hi a) as Ha. rewrite E, Hi in Ha. now inversion Ha.
Qed.

Lemma string_of_uint_no_W (d : Decimal.uint) :
  occurs "W"%char (DecimalString.NilEmpty.string_of_uint d) = false.
Proof. induction d; simpl; auto. Qed.

Lemma astype_str_no_W (z : Z) : occurs "W"%char (astype_str z) = false.
Proof.
  unfold astype_str, DecimalString.NilZero.string_of_int,
    DecimalString.NilZero.string_of_uint.
  destruct (Z.to_int z) as [u|u]; destruct u; simpl;
    try reflexivity; apply string_of_uint_no_W.
Qed.

(** ** Splitting a label *)

Lemma split_at_W (a a' b b' : string) :
  occurs "W"%char a = false -> occurs "W"%char a' = false ->
  String.append a (String.append "-W" b) = String.append a' (String.append "-W" b') ->
  a = a' /\ b = b'.
Proof.
  revert a'. induction a as [|c a IH]; intros [|c' a'] Ha Ha' E; simpl in *.
  - inversion E. now split.
  - exfalso. inversion E as [[Hc Ht]]. subst c'. destruct a' as [|c2 a3]; simpl in *.
    + discriminate.
    + inversion Ht. subst c2. simpl in Ha'. discriminate.
  - exfalso. inversion E as [[Hc Ht]]. subst c. destruct a as [|c2 a3]; simpl in *.
    + discriminate.
    + inversion Ht. subst c2. simpl in Ha. discriminate.
  - inversion E as [[Hc Ht]]. subst c'.
    apply orb_false_iff in Ha, Ha'. destruct Ha as [_ Ha], Ha' as [_ Ha'].
    destruct (IH a' Ha Ha' Ht) as [-> ->]. now split.
Qed.

Lemma string_length_append (s t : string) :
  String.length (String.append s t) = (String.length s + String.length t)%nat.
Proof. induction s; simpl; [reflexivity | now rewrite IHs]. Qed.

Lemma split_at_suffix (s s' t t' : string) :
  String.length t = String.length t' ->
  String.append s t = String.append s' t' -> s = s' /\ t = t'.
Proof.
  revert s'. induction s as [|c s IH]; intros [|c' s'] Hlen E; simpl in *.
  - now split.
  - exfalso. apply (f_equal String.length) in E. simpl in E.
    rewrite string_length_append in E. lia.
  - exfalso. apply (f_equal String.length) in E. simpl in E.
    rewrite string_length_append in E. lia.
  - inversion E as [[Hc Ht]]. destruct (IH s' Hlen Ht) as [-> ->]. now split.
Qed.

Lemma year_week_inj (k k' : Z * Z) : year_week k = year_week k' -> k = k'.
Proof.
  destruct k as [y w], k' as [y' w']. unfold year_week. simpl. intros E.
  apply split_at_W in E; try apply astype_str_no_W.
  destruct E as [Ey Ew]. apply astype_str_inj in Ey, Ew. now subst.
Qed.

Lemma NoDup_map_inj_in {A B : Type} (f : A -> B) (l : list A) :
  (forall a b, In a l -> In b l -> f a = f b -> a = b) ->
  NoDup l -> NoDup (map f l).
Proof.
  intros Hinj Hn. induction Hn as [|x l Hx Hn IH]; simpl; constructor.
  - intros Hin. apply in_map_iff in Hin. destruct Hin as (y & E & Hy).
    apply Hx. replace x with y; [exact Hy|].
    apply Hinj; [now right | now left | exact E].
  - apply IH. intros a b Ha Hb. apply Hinj; now right.
Qed.

(** X21. No two rows of the weekly frame carry the same label
    [year_week]: the points of the weekly chart stay apart. *)
Theorem weekly_labels_distinct (df : DataFrame) :
  NoDup (map (fun row => year_week (fst row)) (weekly df)).
Proof.
  rewrite <- (map_map fst year_week).
  apply NoDup_map_inj_in.
  - intros a b _ _. apply year_week_inj.
  - apply (completion_by_keys_exact pair_eqb pair_leb pair_eqb_eq week_key df).
Qed.

(** ** Month names *)

Lemma month_cases (m : Z) :
  1 <= m <= 12 ->
  m = 1 \/ m = 2 \/ m = 3 \/ m = 4 \/ m = 5 \/ m = 6
  \/ m = 7 \/ m = 8 \/ m = 9 \/ m = 10 \/ m = 11 \/ m = 12.
Proof. lia. Qed.

Lemma year_month_some (k : Z * Z) :
  1 <= snd k <= 12 -> year_month k <> None.
Proof.
  destruct k as [y m]. simpl. intros Hm. apply month_cases in Hm.
  repeat (destruct Hm as [->|Hm]; [discriminate|]). subst m. discriminate.
Qed.

Lemma year_month_inj (k k' : Z * Z) :
  1 <= snd k <= 12 -> 1 <= snd k' <= 12 ->
  year_month k = year_month k' -> k = k'.
Proof.
  destruct k as [y m], k' as [y' m']. simpl. intros Hm Hm' E.
  apply month_cases in Hm, Hm'.
  assert (Hsplit : astype_str y = astype_str y' /\ m = m').
  { repeat (destruct Hm as [Hm|Hm]);
      repeat (destruct Hm' as [Hm'|Hm']); subst m m';
      unfold year_month, map_dict, month_names in E; simpl in E;
      injection E as E;
      apply split_at_suffix in E; try reflexivity;
      destruct E as [Ey En]; (split; [exact Ey|]);
      try reflexivity; discriminate En. }
  destruct Hsplit as [Ey ->]. apply astype_str_inj in Ey. now subst.
Qed.

Lemma monthly_keys_months (df : DataFrame) (k : Z * Z) :
  In k (map fst (monthly df)) -> 1 <= snd k <= 12.
Proof.
  intros H.
  apply (completion_by_keys_exact pair_eqb pair_leb pair_eqb_eq month_key df) in H.
  destruct H as (r & _ & ->). apply dt_month_range.
Qed.

(** X22. Every row of the monthly frame gets a label [year_month] (the
    month of a date is always a key of the dictionary of month names, so
    no label is NaN), and no two rows carry the same label. *)
Theorem monthly_labels_present_and_distinct (df : DataFrame) :
  ~ In None (map (fun row => year_month (fst row)) (monthly df))
  /\ NoDup (map (fun row => year_month (fst row)) (monthly df)).
Proof.
  rewrite <- (map_map fst year_month). split.
  - intros H. apply in_map_iff in H. destruct H as (k & E & Hk).
    apply monthly_keys_months in Hk. exact (year_month_some k Hk E).
  - apply NoDup_map_inj_in.
    + intros a b Ha Hb. apply year_month_inj; now apply (monthly_keys_months df).
    + apply (completion_by_keys_exact pair_eqb pair_leb pair_eqb_eq month_key df).
Qed.
